(** * StoryFlow reading client: the API client and the story reader

    A shallow embedding of [src/api.ts] (the repository client) and of
    [src/components/StoryReader.tsx] (the session controller, the
    chapter/ending projection, the selection rule and the error banner),
    with the properties the specification states about them.

    Conventions.  JavaScript numbers that the server sends as integers
    (days, scores, counts, HTTP status codes) are [Z].  Strings are
    [string]; an optional field ([x?: T], [T | null]) is an [option].  An
    object used as an ordered mapping is an association list in the order
    [Object.entries] enumerates it. *)

From Stdlib Require Import ZArith List String Ascii Bool Lia Permutation Sorted.
From Stdlib Require Import DecimalString.
Import ListNotations.

Local Open Scope string_scope.
Local Open Scope Z_scope.

(** ** JavaScript values, errors and promises *)

(** What a [catch] clause can receive.  Everything [api.ts] and [fetch]
    throw is an [Error] instance of some class; [ThrownOther] is a thrown
    value that is not an [Error]. *)
Inductive error_class := PlainError | SyntaxError | TypeError.

Inductive thrown :=
| Thrown (cls : error_class) (message : string)
| ThrownOther.

(** A settled promise. *)
Inductive outcome (A : Type) :=
| Resolved (a : A)
| Rejected (e : thrown).
Arguments Resolved {A} a.
Arguments Rejected {A} e.

(** [err instanceof Error ? err.message : fallback] *)
Definition message_or (fallback : string) (err : thrown) : string :=
  match err with
  | Thrown _ m => m
  | ThrownOther => fallback
  end.

(** JavaScript truthiness of a string: every string but the empty one. *)
Definition truthy_string (s : string) : bool := negb (String.eqb s "").

(** [s || fallback] for an optional string [s]. *)
Definition string_or (s : option string) (fallback : string) : string :=
  match s with
  | Some v => if truthy_string v then v else fallback
  | None => fallback
  end.

(** [l || []] for an optional array: every array is truthy. *)
Definition list_or {A} (l : option (list A)) : list A :=
  match l with
  | Some v => v
  | None => []
  end.

(** ** The repository client, [src/api.ts] *)

Module Api.

(** The value of a property read off a parsed JSON document.  A value
    that is neither absent, [null] nor a string (a number, a boolean, an
    array, an object) is known to the code through the two things it does
    with it: testing its truthiness and converting it to a string. *)
Inductive js_value :=
| VUndefined
| VNull
| VString (s : string)
| VOther (truthy : bool) (image : string).

Definition truthy (v : js_value) : bool :=
  match v with
  | VUndefined | VNull => false
  | VString s => truthy_string s
  | VOther t _ => t
  end.

(** [String(v)], as [new Error(v)] computes its [message]. *)
Definition to_string (v : js_value) : string :=
  match v with
  | VUndefined => ""
  | VNull => "null"
  | VString s => s
  | VOther _ img => img
  end.

(** [v || fallback] with a string literal on the right. *)
Definition or_else (v : js_value) (fallback : string) : js_value :=
  if truthy v then v else VString fallback.

(** The parsed body of a response: the JSON text [null], or any other
    JSON value with what its [detail] property reads as ([VUndefined]
    when it has none, as for numbers, strings, booleans and arrays). *)
Inductive json :=
| JsonNull
| JsonValue (detail : js_value).

(** A response body: text that [response.json()] parses, or not (the
    promise then rejects with a [SyntaxError] of the engine's wording). *)
Inductive body :=
| NotJson (why : string)
| Json (doc : json).

Record response := { status : Z; payload : body }.

(** What [fetch] settles to: a response of any status, or a rejection
    with a [TypeError] when the network fails. *)
Inductive fetched :=
| NetworkFailure (why : string)
| Response (r : response).

(** [response.ok]: the status is in the range 200-299. *)
Definition ok (r : response) : bool :=
  (200 <=? status r) && (status r <=? 299).

(** [await response.json()] *)
Definition response_json (r : response) : outcome json :=
  match payload r with
  | NotJson why => Rejected (Thrown SyntaxError why)
  | Json doc => Resolved doc
  end.

(** The engine's message for reading a property of [null]. *)
Definition null_read : string :=
  "Cannot read properties of null (reading 'detail')".

(** The error branch every operation repeats:
    [const error = await response.json();
     throw new Error(error.detail || generic);] *)
Definition throw_detail (generic : string) (r : response) : outcome json :=
  match response_json r with
  | Rejected e => Rejected e
  | Resolved JsonNull => Rejected (Thrown TypeError null_read)
  | Resolved (JsonValue detail) =>
      Rejected (Thrown PlainError (to_string (or_else detail generic)))
  end.

(** The shape of all operations that return a payload:
    [if (!response.ok) { ... } return response.json();] *)
Definition request (generic : string) (f : fetched) : outcome json :=
  match f with
  | NetworkFailure why => Rejected (Thrown TypeError why)
  | Response r =>
      if negb (ok r) then throw_detail generic r else response_json r
  end.

Definition healthCheck (f : fetched) : outcome json :=
  match f with
  | NetworkFailure why => Rejected (Thrown TypeError why)
  | Response r =>
      if negb (ok r) then Rejected (Thrown PlainError "Health check failed")
      else response_json r
  end.

Definition createStory : fetched -> outcome json :=
  request "Failed to create story".
Definition listStories : fetched -> outcome json :=
  request "Failed to list stories".
Definition getStory : fetched -> outcome json :=
  request "Failed to get story".
Definition runDay : fetched -> outcome json :=
  request "Failed to run day".
Definition listChapters : fetched -> outcome json :=
  request "Failed to list chapters".
Definition getEmotions : fetched -> outcome json :=
  request "Failed to get emotions".
Definition generateEnding : fetched -> outcome json :=
  request "Failed to generate ending".
Definition listDemoStories : fetched -> outcome json :=
  request "Failed to list demo stories".
Definition createStoryFromDemo : fetched -> outcome json :=
  request "Failed to create story from demo".

(** [deleteStory] resolves to nothing and never reads a successful body:
    [if (!response.ok && response.status !== 204) { ... }] *)
Definition deleteStory (f : fetched) : outcome unit :=
  match f with
  | NetworkFailure why => Rejected (Thrown TypeError why)
  | Response r =>
      if negb (ok r) && negb (status r =? 204) then
        match throw_detail "Failed to delete story" r with
        | Rejected e => Rejected e
        | Resolved _ => Resolved tt
        end
      else Resolved tt
  end.

(** The operations that read the error body, by name. *)
Inductive operation :=
| CreateStory | ListStories | GetStory | RunDay | ListChapters
| GetEmotions | GenerateEnding | DeleteStory | ListDemoStories
| CreateStoryFromDemo.

Definition generic_message (op : operation) : string :=
  match op with
  | CreateStory => "Failed to create story"
  | ListStories => "Failed to list stories"
  | GetStory => "Failed to get story"
  | RunDay => "Failed to run day"
  | ListChapters => "Failed to list chapters"
  | GetEmotions => "Failed to get emotions"
  | GenerateEnding => "Failed to generate ending"
  | DeleteStory => "Failed to delete story"
  | ListDemoStories => "Failed to list demo stories"
  | CreateStoryFromDemo => "Failed to create story from demo"
  end.

(** The rejection of an operation on a fetched response, if it rejects. *)
Definition rejection {A} (o : outcome A) : option thrown :=
  match o with
  | Resolved _ => None
  | Rejected e => Some e
  end.

Definition failure (op : operation) (f : fetched) : option thrown :=
  match op with
  | CreateStory => rejection (createStory f)
  | ListStories => rejection (listStories f)
  | GetStory => rejection (getStory f)
  | RunDay => rejection (runDay f)
  | ListChapters => rejection (listChapters f)
  | GetEmotions => rejection (getEmotions f)
  | GenerateEnding => rejection (generateEnding f)
  | DeleteStory => rejection (deleteStory f)
  | ListDemoStories => rejection (listDemoStories f)
  | CreateStoryFromDemo => rejection (createStoryFromDemo f)
  end.

(** A non-2xx response whose body is a JSON object with this [detail]. *)
Definition error_response (code : Z) (detail : js_value) : response :=
  {| status := code; payload := Json (JsonValue detail) |}.

End Api.

(** ** The data the reader works on, from the interfaces of [src/api.ts] *)

Record EndingScore := { es_type : string; es_score : Z }.

(** [ending_vector: Record<string, number>] is kept as the sequence of
    entries [Object.entries] yields: for the label keys the server uses,
    the order in which the keys were inserted. *)
Record StoryStatus := {
  story_id : string;
  title : string;
  day_index : Z;
  max_days : Z;
  finished : bool;
  last_emotion : option string;
  top2_endings : list EndingScore;
  ending_vector : list (string * Z);
  open_threads : list string;
  chapters_count : Z
}.

(** The nested [ending?: Record<string, unknown>] of a chapter, with the
    three properties the reader reads off it; [None] is a property that is
    absent or [null]. *)
Record EndingData := {
  d_ending_type : option string;
  d_resolved_threads : option (list string);
  d_unresolved_threads : option (list string)
}.

(** [Chapter]; the untyped [beat_used] and [evaluation] records, which the
    reader never touches, are left out. *)
Record Chapter := {
  id : string;
  c_story_id : string;
  day : Z;
  emotion : string;
  chapter_type : string;
  seed : option Z;
  chapter_title : option string;
  chapter_text : string;
  chapter_summary : string;
  chapter_word_count : Z;
  c_ending : option EndingData;
  created_at : option string
}.

Record ChapterListResponse := { chapters_of : list Chapter; total : Z }.

Record EndingResponse := {
  ending_type : string;
  e_title : string;
  text : string;
  word_count : Z;
  resolved_threads : list string;
  unresolved_threads : list string
}.

Inductive recap_flag := RecapOn | RecapOff.

Record RunDayRequest := {
  rq_emotion : string;
  rq_recap : option recap_flag;
  rq_seed : option Z
}.

(** [RunDayResponse], without its untyped [beat_used], [evaluation] and
    [ending] records. *)
Record RunDayResponse := {
  rd_story_id : string;
  day_generated : Z;
  rd_emotion : string;
  rd_recap : option string;
  rd_chapter_text : string;
  rd_chapter_word_count : Z;
  rd_chapter_summary : string;
  rd_ending_vector : list (string * Z);
  story_complete : bool;
  seed_used : option Z
}.

(** ** The story reader, [src/components/StoryReader.tsx] *)

Module Reader.

Definition LOADING_MESSAGES : list string :=
  [ "Weaving the next chapter...";
    "The story unfolds...";
    "Characters come to life...";
    "Crafting your narrative...";
    "The tale continues...";
    "Words find their way...";
    "Building anticipation...";
    "Threads intertwine..." ].

(** The component's state: one field per [useState]. *)
Record State := {
  story : option StoryStatus;
  chapters : list Chapter;
  loading : bool;
  generating : bool;
  loadingMessage : string;
  error : string;
  showModal : bool;
  ending : option EndingResponse;
  generatingEnding : bool;
  insightsOpen : bool;
  selectedChapter : option Z
}.

(** The initial values of the [useState] calls. *)
Definition initial : State := {|
  story := None;
  chapters := [];
  loading := true;
  generating := false;
  loadingMessage := hd "" LOADING_MESSAGES;
  error := "";
  showModal := false;
  ending := None;
  generatingEnding := false;
  insightsOpen := false;
  selectedChapter := None
|}.

(** The state setters. *)
Definition setStory (v : option StoryStatus) (s : State) : State :=
  {| story := v; chapters := chapters s; loading := loading s;
     generating := generating s; loadingMessage := loadingMessage s;
     error := error s; showModal := showModal s; ending := ending s;
     generatingEnding := generatingEnding s;
     insightsOpen := insightsOpen s;
     selectedChapter := selectedChapter s |}.

Definition setChapters (v : list Chapter) (s : State) : State :=
  {| story := story s; chapters := v; loading := loading s;
     generating := generating s; loadingMessage := loadingMessage s;
     error := error s; showModal := showModal s; ending := ending s;
     generatingEnding := generatingEnding s;
     insightsOpen := insightsOpen s;
     selectedChapter := selectedChapter s |}.

Definition setLoading (v : bool) (s : State) : State :=
  {| story := story s; chapters := chapters s; loading := v;
     generating := generating s; loadingMessage := loadingMessage s;
     error := error s; showModal := showModal s; ending := ending s;
     generatingEnding := generatingEnding s;
     insightsOpen := insightsOpen s;
     selectedChapter := selectedChapter s |}.

Definition setGenerating (v : bool) (s : State) : State :=
  {| story := story s; chapters := chapters s; loading := loading s;
     generating := v; loadingMessage := loadingMessage s;
     error := error s; showModal := showModal s; ending := ending s;
     generatingEnding := generatingEnding s;
     insightsOpen := insightsOpen s;
     selectedChapter := selectedChapter s |}.

Definition setLoadingMessage (v : string) (s : State) : State :=
  {| story := story s; chapters := chapters s; loading := loading s;
     generating := generating s; loadingMessage := v;
     error := error s; showModal := showModal s; ending := ending s;
     generatingEnding := generatingEnding s;
     insightsOpen := insightsOpen s;
     selectedChapter := selectedChapter s |}.

Definition setError (v : string) (s : State) : State :=
  {| story := story s; chapters := chapters s; loading := loading s;
     generating := generating s; loadingMessage := loadingMessage s;
     error := v; showModal := showModal s; ending := ending s;
     generatingEnding := generatingEnding s;
     insightsOpen := insightsOpen s;
     selectedChapter := selectedChapter s |}.

Definition setShowModal (v : bool) (s : State) : State :=
  {| story := story s; chapters := chapters s; loading := loading s;
     generating := generating s; loadingMessage := loadingMessage s;
     error := error s; showModal := v; ending := ending s;
     generatingEnding := generatingEnding s;
     insightsOpen := insightsOpen s;
     selectedChapter := selectedChapter s |}.

Definition setEnding (v : option EndingResponse) (s : State) : State :=
  {| story := story s; chapters := chapters s; loading := loading s;
     generating := generating s; loadingMessage := loadingMessage s;
     error := error s; showModal := showModal s; ending := v;
     generatingEnding := generatingEnding s;
     insightsOpen := insightsOpen s;
     selectedChapter := selectedChapter s |}.

Definition setGeneratingEnding (v : bool) (s : State) : State :=
  {| story := story s; chapters := chapters s; loading := loading s;
     generating := generating s; loadingMessage := loadingMessage s;
     error := error s; showModal := showModal s; ending := ending s;
     generatingEnding := v;
     insightsOpen := insightsOpen s;
     selectedChapter := selectedChapter s |}.

Definition setInsightsOpen (v : bool) (s : State) : State :=
  {| story := story s; chapters := chapters s; loading := loading s;
     generating := generating s; loadingMessage := loadingMessage s;
     error := error s; showModal := showModal s; ending := ending s;
     generatingEnding := generatingEnding s;
     insightsOpen := v;
     selectedChapter := selectedChapter s |}.

Definition setSelectedChapter (v : option Z) (s : State) : State :=
  {| story := story s; chapters := chapters s; loading := loading s;
     generating := generating s; loadingMessage := loadingMessage s;
     error := error s; showModal := showModal s; ending := ending s;
     generatingEnding := generatingEnding s;
     insightsOpen := insightsOpen s;
     selectedChapter := v |}.

(** The interval that runs while [generating] is set:
    [const currentIndex = LOADING_MESSAGES.indexOf(prev);
     const nextIndex = (currentIndex + 1) % LOADING_MESSAGES.length;
     return LOADING_MESSAGES[nextIndex];] *)
Fixpoint indexOf (l : list string) (x : string) : Z :=
  match l with
  | [] => -1
  | y :: l' =>
      if String.eqb y x then 0
      else let i := indexOf l' x in if i <? 0 then -1 else i + 1
  end.

Definition nextMessage (prev : string) : string :=
  let currentIndex := indexOf LOADING_MESSAGES prev in
  let nextIndex :=
    Z.rem (currentIndex + 1) (Z.of_nat (List.length LOADING_MESSAGES)) in
  nth (Z.to_nat nextIndex) LOADING_MESSAGES "".

(** *** Remote calls and asynchronous handlers *)

(** The remote calls a handler awaits.  [CallLoad] is the
    [Promise.all([api.getStory(id), api.listChapters(id)])] of
    [loadStory]: it resolves with both payloads, or rejects with the
    rejection that came first. *)
Inductive call :=
| CallLoad (storyId : string)
| CallRunDay (storyId : string) (request : RunDayRequest)
| CallGenerateEnding (storyId : string).

Definition reply (c : call) : Type :=
  match c with
  | CallLoad _ => outcome (StoryStatus * ChapterListResponse)
  | CallRunDay _ _ => outcome RunDayResponse
  | CallGenerateEnding _ => outcome EndingResponse
  end.

(** An [async] handler: state updates up to the next [await], the awaited
    call, and what runs when it settles.  No handler reads the state; each
    only calls setters, so a segment is a function on the state at the
    time it runs. *)
Inductive task :=
| Finish (f : State -> State)
| Await (f : State -> State) (c : call) (k : reply c -> task).

(** Statements that run before the first segment of [t]. *)
Definition first (f : State -> State) (t : task) : task :=
  match t with
  | Finish g => Finish (fun s => g (f s))
  | Await g c k => Await (fun s => g (f s)) c k
  end.

(** [await t(); rest] for a task that never rejects: the last segment of
    [t] and the first of [rest] run in the same turn of the event loop. *)
Fixpoint andThen (t rest : task) : task :=
  match t with
  | Finish f => first f rest
  | Await f c k => Await f c (fun r => andThen (k r) rest)
  end.

(** *** Projection of the chapter list *)

Definition is_ending (c : Chapter) : bool :=
  String.eqb (chapter_type c) "ending".

Definition is_regular (c : Chapter) : bool := negb (is_ending c).

(** The object [loadStory] passes to [setEnding]. *)
Definition project_ending (endingChapter : Chapter) : EndingResponse :=
  let endingData := c_ending endingChapter in
  {| ending_type :=
       string_or (match endingData with
                  | Some d => d_ending_type d
                  | None => None
                  end) "unknown";
     e_title := string_or (chapter_title endingChapter) "The End";
     text := chapter_text endingChapter;
     word_count := chapter_word_count endingChapter;
     resolved_threads :=
       list_or (match endingData with
                | Some d => d_resolved_threads d
                | None => None
                end);
     unresolved_threads :=
       list_or (match endingData with
                | Some d => d_unresolved_threads d
                | None => None
                end) |}.

(** The body of [loadStory]'s [try] after the [await]. *)
Definition applyLoad (storyData : StoryStatus)
    (chaptersData : ChapterListResponse) (s : State) : State :=
  let s := setStory (Some storyData) s in
  let regularChapters := filter is_regular (chapters_of chaptersData) in
  let endingChapter := find is_ending (chapters_of chaptersData) in
  let s := setChapters regularChapters s in
  let s := match endingChapter with
           | Some c => setEnding (Some (project_ending c)) s
           | None => s
           end in
  match regularChapters with
  | c :: _ => setSelectedChapter (Some (day c)) s
  | [] => s
  end.

Section Component.

(** The [storyId] prop. *)
Variable storyId : string.

Definition loadStory : task :=
  Await (fun s => setError "" (setLoading true s)) (CallLoad storyId)
    (fun r =>
       match r with
       | Resolved (storyData, chaptersData) =>
           Finish (fun s =>
             setLoading false (applyLoad storyData chaptersData s))
       | Rejected err =>
           Finish (fun s =>
             setLoading false
               (setError (message_or "Failed to load story" err) s))
       end).

Definition handleContinue (emotion : string) : task :=
  Await
    (fun s =>
       setError ""
         (setLoadingMessage (hd "" LOADING_MESSAGES)
            (setGenerating true (setShowModal false s))))
    (CallRunDay storyId
       {| rq_emotion := emotion; rq_recap := Some RecapOn;
          rq_seed := None |})
    (fun r =>
       match r with
       | Resolved _ => andThen loadStory (Finish (setGenerating false))
       | Rejected err =>
           Finish (fun s =>
             setGenerating false
               (setError (message_or "Failed to continue story" err) s))
       end).

Definition handleGenerateEnding : task :=
  Await
    (fun s =>
       setLoadingMessage "Crafting the perfect ending..."
         (setGeneratingEnding true s))
    (CallGenerateEnding storyId)
    (fun r =>
       match r with
       | Resolved result =>
           first (setEnding (Some result))
             (andThen loadStory
                (Finish (fun s =>
                   setGeneratingEnding false
                     (setSelectedChapter (Some (-1)) s))))
       | Rejected err =>
           Finish (fun s =>
             setGeneratingEnding false
               (setError (message_or "Failed to generate ending" err) s))
       end).

End Component.

(** *** Values derived at each render *)

(** Truthiness of [selectedChapter: number | null]. *)
Definition truthy_number (n : option Z) : bool :=
  match n with
  | Some v => negb (v =? 0)
  | None => false
  end.

(** [selectedChapter ? chapters.find((c) => c.day === selectedChapter)
                     : chapters[0]] *)
Definition currentChapter (s : State) : option Chapter :=
  match selectedChapter s with
  | Some v =>
      if truthy_number (Some v)
      then find (fun c => day c =? v) (chapters s)
      else hd_error (chapters s)
  | None => hd_error (chapters s)
  end.

(** [Array.prototype.sort] with a comparator.  The language requires the
    sort to be stable; insertion from the right is a stable sort, and for
    a comparator that orders by a key all stable sorts agree.  [x] moves
    behind [y] only when [compareFn(x, y) > 0]. *)
Fixpoint insert {A} (compareFn : A -> A -> Z) (x : A) (l : list A)
  : list A :=
  match l with
  | [] => [x]
  | y :: l' =>
      if 0 <? compareFn x y then y :: insert compareFn x l'
      else x :: y :: l'
  end.

Fixpoint sort {A} (compareFn : A -> A -> Z) (l : list A) : list A :=
  match l with
  | [] => []
  | x :: l' => insert compareFn x (sort compareFn l')
  end.

(** The comparator of [getDominantEnding], [([, a], [, b]) => b - a]:
    larger scores first. *)
Definition byScore (a b : string * Z) : Z := snd b - snd a.

(** [getDominantEnding]; [None] is its [null]. *)
Definition getDominantEnding (s : State) : option EndingScore :=
  match story s with
  | None => None
  | Some st =>
      let entries := ending_vector st in
      match entries with
      | [] => None
      | _ :: _ =>
          let sorted := sort byScore entries in
          match sorted with
          | e :: _ => Some {| es_type := fst e; es_score := snd e |}
          | [] => None
          end
      end
  end.

(** *** What is rendered *)

(** The early returns of the component. *)
Inductive screen := LoadingState | ErrorState | Nothing | Main.

Definition render (s : State) : screen :=
  match story s with
  | None =>
      if loading s then LoadingState
      else if truthy_string (error s) then ErrorState
      else Nothing
  | Some _ => Main
  end.

(** The header's "Continue Story" button: rendered and [disabled]. *)
Definition continue_shown (st : StoryStatus) : bool :=
  negb (finished st) && (day_index st <=? max_days st).

Definition continue_disabled (s : State) : bool :=
  loading s || generating s.

(** The header's "Generate Ending" button. *)
Definition has_ending (s : State) : bool :=
  match ending s with Some _ => true | None => false end.

Definition ending_shown (st : StoryStatus) (s : State) : bool :=
  (finished st || (max_days st <? day_index st)) && negb (has_ending s).

Definition ending_disabled (s : State) : bool := generatingEnding s.

(** The chapter reader: the ending, the current chapter, or the
    "No chapters yet." panel with its "Start Writing" button. *)
Inductive panel :=
| EndingPanel (e : EndingResponse)
| ChapterPanel (c : Chapter)
| NoChapters.

Definition ending_selected (s : State) : bool :=
  match selectedChapter s with
  | Some v => v =? -1
  | None => false
  end.

Definition reader_panel (s : State) : panel :=
  match ending_selected s, ending s with
  | true, Some e => EndingPanel e
  | _, _ =>
      match currentChapter s with
      | Some c => ChapterPanel c
      | None => NoChapters
      end
  end.

(** The names in [EMOTIONS] of [ContinueModal.tsx]. *)
Definition EMOTIONS : list string :=
  [ "kind"; "prideful"; "wrathful"; "envious"; "fearful"; "conflicted";
    "determined"; "restless"; "humble"; "greedy"; "lustful" ].

(** The controls a user can activate.  [ModalSubmit e] is choosing the
    emotion card [e] in the modal and pressing its submit button. *)
Inductive control :=
| ContinueButton
| GenerateEndingButton
| StartWritingButton
| DismissError
| InsightsToggle
| ChapterItem (d : Z)
| EndingItem
| ModalClose
| ModalSubmit (emotion : string).

(** Whether a control is in the rendered page and not [disabled]. *)
Definition enabled (s : State) (c : control) : bool :=
  match story s with
  | None => false
  | Some st =>
      match c with
      | ContinueButton => continue_shown st && negb (continue_disabled s)
      | GenerateEndingButton =>
          ending_shown st s && negb (ending_disabled s)
      | StartWritingButton =>
          match reader_panel s with NoChapters => true | _ => false end
      | DismissError => truthy_string (error s)
      | InsightsToggle => true
      | ChapterItem d => existsb (fun c => day c =? d) (chapters s)
      | EndingItem => has_ending s
      | ModalClose => showModal s
      | ModalSubmit e =>
          showModal s && existsb (String.eqb e) EMOTIONS
      end
  end.

Section Session.

Variable storyId : string.

(** The [onClick] of each control. *)
Definition onClick (c : control) : task :=
  match c with
  | ContinueButton => Finish (setShowModal true)
  | GenerateEndingButton => handleGenerateEnding storyId
  | StartWritingButton => Finish (setShowModal true)
  | DismissError => Finish (setError "")
  | InsightsToggle =>
      Finish (fun s => setInsightsOpen (negb (insightsOpen s)) s)
  | ChapterItem d => Finish (setSelectedChapter (Some d))
  | EndingItem => Finish (setSelectedChapter (Some (-1)))
  | ModalClose => Finish (setShowModal false)
  | ModalSubmit e => handleContinue storyId e
  end.

(** A handler suspended at an [await]. *)
Record pending := { p_call : call; p_resume : reply p_call -> task }.

(** An open reader: the component's state and the calls in flight. *)
Record session := { view : State; awaiting : list pending }.

(** Run a task up to its first [await]. *)
Definition spawn (t : task) (ss : session) : session :=
  match t with
  | Finish f => {| view := f (view ss); awaiting := awaiting ss |}
  | Await f c k =>
      {| view := f (view ss);
         awaiting := awaiting ss ++ [ {| p_call := c; p_resume := k |} ] |}
  end.

(** Mounting the component: the effect calls [loadStory]. *)
Definition mount : session :=
  spawn (loadStory storyId) {| view := initial; awaiting := [] |}.

Fixpoint drop_nth {A} (n : nat) (l : list A) : list A :=
  match n, l with
  | _, [] => []
  | O, _ :: l' => l'
  | S n', x :: l' => x :: drop_nth n' l'
  end.

(** What happens to an open reader: the user activates a control, the
    [n]-th call in flight settles with the server's answer, or the
    interval of the progress messages fires. *)
Inductive event :=
| Click (c : control)
| Settle (n : nat) (answer : forall c : call, reply c)
| Tick.

Definition step (ss : session) (e : event) : session :=
  match e with
  | Click c => if enabled (view ss) c then spawn (onClick c) ss else ss
  | Settle n answer =>
      match nth_error (awaiting ss) n with
      | None => ss
      | Some p =>
          spawn (p_resume p (answer (p_call p)))
            {| view := view ss; awaiting := drop_nth n (awaiting ss) |}
      end
  | Tick =>
      if generating (view ss)
      then {| view := setLoadingMessage
                        (nextMessage (loadingMessage (view ss))) (view ss);
              awaiting := awaiting ss |}
      else ss
  end.

Definition steps (es : list event) (ss : session) : session :=
  fold_left step es ss.

(** The calls that change the story on the server. *)
Definition mutating (c : call) : bool :=
  match c with
  | CallLoad _ => false
  | CallRunDay _ _ | CallGenerateEnding _ => true
  end.

Definition mutations_in_flight (ss : session) : nat :=
  List.length (filter (fun p => mutating (p_call p)) (awaiting ss)).

(** A handler run on its own, from start to end: the [n]-th call it
    makes settles with [answers n]; the result is the final state and
    the calls made, in order. *)
Fixpoint run (t : task) (answers : nat -> forall c : call, reply c)
    (n : nat) (s : State) : State * list call :=
  match t with
  | Finish f => (f s, [])
  | Await f c k =>
      let (s', cs) := run (k (answers n c)) answers (S n) (f s) in
      (s', c :: cs)
  end.

End Session.

(** No operation in flight. *)
Definition idle (s : State) : bool :=
  negb (loading s) && negb (generating s) && negb (generatingEnding s).

End Reader.

(** ** The specification's notions, and sample data *)

Module Spec.
Import Reader.

(** The three things a load replaces: the story snapshot, the chapter
    list and the ending. *)
Definition snapshot (s : State) :=
  (story s, chapters s, ending s).

(** The numerically largest [day] of a chapter list. *)
Fixpoint largest_day (cs : list Chapter) : option Z :=
  match cs with
  | [] => None
  | c :: cs' =>
      match largest_day cs' with
      | None => Some (day c)
      | Some m => Some (Z.max (day c) m)
      end
  end.

(** The first entry with the maximal score, scanning from the right:
    an earlier entry wins unless a later one is strictly larger. *)
Fixpoint first_maximal (v : list (string * Z)) : option (string * Z) :=
  match v with
  | [] => None
  | e :: v' =>
      match first_maximal v' with
      | None => Some e
      | Some m => if snd e <? snd m then Some m else Some e
      end
  end.

(** The call [handleContinue] makes: [api.runDay(storyId, { emotion,
    recap: "on" })]. *)
Definition day_request (storyId emotion : string) : call :=
  CallRunDay storyId
    {| rq_emotion := emotion; rq_recap := Some RecapOn; rq_seed := None |}.

(** [s'] is [s] but for the error message. *)
Definition same_but_error (s s' : State) : Prop :=
  story s' = story s /\ chapters s' = chapters s
  /\ loading s' = loading s /\ generating s' = generating s
  /\ loadingMessage s' = loadingMessage s /\ showModal s' = showModal s
  /\ ending s' = ending s /\ generatingEnding s' = generatingEnding s
  /\ insightsOpen s' = insightsOpen s
  /\ selectedChapter s' = selectedChapter s.

(** The controls that lead to a day submission are the header's Continue
    button and the "Start Writing" button, both opening the modal. *)
Definition advance_offered (s : State) : bool :=
  match story s with
  | None => false
  | Some st =>
      continue_shown st
      || match reader_panel s with NoChapters => true | _ => false end
  end.

Definition ending_offered (s : State) : bool :=
  match story s with
  | None => false
  | Some st => ending_shown st s
  end.

(** The handler suspended when a task reaches its first [await]. *)
Definition resume_of (t : task) : list pending :=
  match t with
  | Finish _ => []
  | Await _ c k => [ {| p_call := c; p_resume := k |} ]
  end.

(** The story may be continued; the story is loaded and may not. *)
Definition eligible (s : State) : Prop :=
  exists st, story s = Some st /\ continue_shown st = true.

Definition overdue (s : State) : Prop :=
  exists st, story s = Some st /\ continue_shown st = false.

(** The states of the specification's controller, read off an open
    reader: which handler is suspended, and what the flags say. *)
Inductive phase (storyId : string) (ss : session) : Prop :=
| Opening :
    awaiting ss = resume_of (loadStory storyId) ->
    story (view ss) = None ->
    showModal (view ss) = false ->
    phase storyId ss
| Idle :
    awaiting ss = [] ->
    (showModal (view ss) = true -> eligible (view ss)) ->
    phase storyId ss
| Advancing (emotion : string) :
    awaiting ss = resume_of (handleContinue storyId emotion) ->
    generating (view ss) = true ->
    showModal (view ss) = false ->
    eligible (view ss) ->
    phase storyId ss
| AdvancingReload :
    awaiting ss
    = resume_of (andThen (loadStory storyId) (Finish (setGenerating false))) ->
    generating (view ss) = true ->
    showModal (view ss) = false ->
    eligible (view ss) ->
    phase storyId ss
| GeneratingEnding :
    awaiting ss = resume_of (handleGenerateEnding storyId) ->
    generatingEnding (view ss) = true ->
    showModal (view ss) = false ->
    overdue (view ss) ->
    phase storyId ss
| EndingReload :
    awaiting ss
    = resume_of
        (andThen (loadStory storyId)
           (Finish (fun s =>
              setGeneratingEnding false
                (setSelectedChapter (Some (-1)) s)))) ->
    generatingEnding (view ss) = true ->
    loading (view ss) = true ->
    showModal (view ss) = false ->
    phase storyId ss.

(** The user never activates "Start Writing". *)
Definition no_start_writing (es : list event) : Prop :=
  ~ In (Click StartWritingButton) es.

End Spec.

Module Samples.
Import Reader.

Definition sid : string := "s1".

Definition a_story (d m : Z) (fin : bool) (v : list (string * Z))
  : StoryStatus :=
  {| story_id := sid; title := "A story"; day_index := d; max_days := m;
     finished := fin; last_emotion := None; top2_endings := [];
     ending_vector := v; open_threads := []; chapters_count := 0 |}.

Definition a_chapter (d : Z) (type : string) (ttl : option string)
    (e : option EndingData) : Chapter :=
  {| id := "c"; c_story_id := sid; day := d; emotion := "neutral";
     chapter_type := type; seed := None; chapter_title := ttl;
     chapter_text := "text"; chapter_summary := "summary";
     chapter_word_count := 100; c_ending := e; created_at := None |}.

Definition prologue : Chapter := a_chapter 0 "prologue" None None.
Definition day1 : Chapter := a_chapter 1 "day" (Some "One") None.
Definition day2 : Chapter := a_chapter 2 "day" (Some "Two") None.

Definition an_ending (ttl : string) : EndingResponse :=
  {| ending_type := "redemption"; e_title := ttl; text := "text";
     word_count := 100; resolved_threads := [];
     unresolved_threads := [] |}.

Definition a_day_response : RunDayResponse :=
  {| rd_story_id := sid; day_generated := 3; rd_emotion := "kind";
     rd_recap := None; rd_chapter_text := "new text";
     rd_chapter_word_count := 7; rd_chapter_summary := "new";
     rd_ending_vector := [("tragedy", 9)]; story_complete := false;
     seed_used := None |}.

(** A server: what it answers to a load, to a day and to an ending. *)
Definition server (l : outcome (StoryStatus * ChapterListResponse))
    (d : outcome RunDayResponse) (e : outcome EndingResponse)
  : forall c : call, reply c :=
  fun c =>
    match c as c0 return reply c0 with
    | CallLoad _ => l
    | CallRunDay _ _ => d
    | CallGenerateEnding _ => e
    end.

Definition loaded (st : StoryStatus) (cs : list Chapter)
  : outcome (StoryStatus * ChapterListResponse) :=
  Resolved (st, {| chapters_of := cs; total := Z.of_nat (List.length cs) |}).

Definition network_error {A} : outcome A :=
  Rejected (Thrown TypeError "Failed to fetch").

(** A server on which both mutations fail, and one on which they
    succeed. *)
Definition offline (st : StoryStatus) (cs : list Chapter)
  : forall c : call, reply c :=
  server (loaded st cs) network_error network_error.

Definition online (st : StoryStatus) (cs : list Chapter)
  : forall c : call, reply c :=
  server (loaded st cs) (Resolved a_day_response)
    (Resolved (an_ending "Dawn")).

(** A state with a story loaded and nothing in flight. *)
Definition at_rest (st : StoryStatus) (cs : list Chapter)
    (e : option EndingResponse) (sel : option Z) : State :=
  {| story := Some st; chapters := cs; loading := false;
     generating := false; loadingMessage := hd "" LOADING_MESSAGES;
     error := ""; showModal := false; ending := e;
     generatingEnding := false; insightsOpen := false;
     selectedChapter := sel |}.

(** A persisted ending record. *)
Definition ending_record (ttl : option string) : Chapter :=
  a_chapter 8 "ending" ttl None.

(** A server whose mutations fail with the client's generic messages. *)
Definition failing (st : StoryStatus) (cs : list Chapter)
  : forall c : call, reply c :=
  server (loaded st cs)
    (Rejected (Thrown PlainError "Failed to run day"))
    (Rejected (Thrown PlainError "Failed to generate ending")).

(** A story just created, one past its last day, and a finished one. *)
Definition fresh_story : StoryStatus := a_story 1 7 false [].
Definition overrun_story : StoryStatus := a_story 8 7 false [].
Definition finished_story : StoryStatus := a_story 8 7 true [].

(** A reader is opened on a story without chapters; the user continues
    with "kind", and while that day is being written activates "Start
    Writing" and submits again. *)
Definition double_submit : list event :=
  [ Settle 0 (online fresh_story []);
    Click ContinueButton;
    Click (ModalSubmit "kind");
    Click StartWritingButton;
    Click (ModalSubmit "wrathful") ].

(** A reader is opened on a story without chapters; the user activates
    "Start Writing" and submits. *)
Definition start_writing (st : StoryStatus) : list event :=
  [ Settle 0 (online st []);
    Click StartWritingButton;
    Click (ModalSubmit "kind") ].

End Samples.

(** ** What the reader displays, [src/components/StoryReader.tsx] *)

Module Display.
Import Reader.


(** [type.replace("_", " ")]: a string pattern replaces its first
    occurrence only. *)
Fixpoint replaceUnderscore (s : string) : string :=
  match s with
  | EmptyString => EmptyString
  | String c rest =>
      if Ascii.eqb c "_"%char then String " "%char rest
      else String c (replaceUnderscore rest)
  end.


(** The width, in percent, of an ending's bar:
    [Math.max(5, Math.min(100, (score + 10) * 5))]. *)
Definition barWidth (score : Z) : Z :=
  Z.max 5 (Z.min 100 ((score + 10) * 5)).


(** Whether a chapter's sidebar item carries the class "selected":
    [selectedChapter === chapter.day && !ending]. *)
Definition chapterItemSelected (s : State) (c : Chapter) : bool :=
  match selectedChapter s with
  | Some v => (v =? day c) && negb (has_ending s)
  | None => false
  end.

(** Whether the ending's sidebar item does: [selectedChapter === -1]. *)
Definition endingItemSelected (s : State) : bool := ending_selected s.

End Display.

(** ** The handlers a reader can have suspended *)

Module Track.
Import Reader Spec.

(** The five places where a handler of the reader awaits: the load of
    [loadStory] called on its own, the submission and the reload of
    [handleContinue], the request and the reload of
    [handleGenerateEnding]. *)
Inductive kind :=
| KLoad
| KDay (emotion : string)
| KDayReload
| KEnding
| KEndingReload.

Definition task_of (storyId : string) (k : kind) : task :=
  match k with
  | KLoad => loadStory storyId
  | KDay e => handleContinue storyId e
  | KDayReload => andThen (loadStory storyId) (Finish (setGenerating false))
  | KEnding => handleGenerateEnding storyId
  | KEndingReload =>
      andThen (loadStory storyId)
        (Finish (fun s =>
           setGeneratingEnding false (setSelectedChapter (Some (-1)) s)))
  end.

(** The handlers that clear each flag when they end. *)
Definition loads (k : kind) : bool :=
  match k with
  | KLoad | KDayReload | KEndingReload => true
  | KDay _ | KEnding => false
  end.

Definition advances (k : kind) : bool :=
  match k with
  | KDay _ | KDayReload => true
  | KLoad | KEnding | KEndingReload => false
  end.

Definition ends (k : kind) : bool :=
  match k with
  | KEnding | KEndingReload => true
  | KLoad | KDay _ | KDayReload => false
  end.

(** A reader whose calls in flight are those of the handlers [ks], whose
    flags each have a handler in flight that will clear them, and whose
    chapter list holds no ending record. *)
Definition tracked (storyId : string) (ks : list kind) (ss : session)
  : Prop :=
  awaiting ss = flat_map (fun k => resume_of (task_of storyId k)) ks
  /\ (loading (view ss) = true -> existsb loads ks = true)
  /\ (generating (view ss) = true -> existsb advances ks = true)
  /\ (generatingEnding (view ss) = true -> existsb ends ks = true)
  /\ forallb is_regular (chapters (view ss)) = true.

(** Nothing that was shown is taken away: a story stays, an ending
    stays. *)
Definition keeps (s s' : State) : Prop :=
  (story s <> None -> story s' <> None)
  /\ (ending s <> None -> ending s' <> None).

End Track.

(** ** The emotion modal, [src/components/ContinueModal.tsx] *)

Module Modal.

(** The component's state; its props [currentDay] and [maxDays] only feed
    the texts, which are left out. *)
Record State := { selectedEmotion : string; submitting : bool }.

Definition initial : State :=
  {| selectedEmotion := ""; submitting := false |}.

(** The calls to the props [onContinue] and [onClose]. *)
Inductive callback :=
| OnContinue (emotion : string)
| OnClose.

(** [handleSubmit] *)
Definition handleSubmit (s : State) : State * list callback :=
  if negb (truthy_string (selectedEmotion s)) then (s, [])
  else ({| selectedEmotion := selectedEmotion s; submitting := true |},
        [OnContinue (selectedEmotion s)]).

(** What can be clicked: a card of the emotion grid, the two buttons of
    the footer, the close button and the overlay behind the dialog. *)
Inductive control :=
| EmotionCard (name : string)
| SubmitButton
| CancelButton
| CloseButton
| Overlay.

Definition click (s : State) (c : control) : State * list callback :=
  match c with
  | EmotionCard name =>
      if existsb (String.eqb name) Reader.EMOTIONS
      then ({| selectedEmotion := name; submitting := submitting s |}, [])
      else (s, [])
  | SubmitButton =>
      if negb (truthy_string (selectedEmotion s)) || submitting s
      then (s, [])
      else handleSubmit s
  | CancelButton => if submitting s then (s, []) else (s, [OnClose])
  | CloseButton | Overlay => (s, [OnClose])
  end.

(** A sequence of clicks on one mounted modal, with the callbacks made. *)
Fixpoint clicks (cs : list control) (s : State) : State * list callback :=
  match cs with
  | [] => (s, [])
  | c :: cs' =>
      let (s1, out1) := click s c in
      let (s2, out2) := clicks cs' s1 in
      (s2, (out1 ++ out2)%list)
  end.

Definition is_continue (c : callback) : bool :=
  match c with OnContinue _ => true | OnClose => false end.

(** The emotion held is none yet, or the name of one of the cards. *)
Definition chosen (s : State) : Prop :=
  selectedEmotion s = "" \/ In (selectedEmotion s) Reader.EMOTIONS.

End Modal.

(** ** The landing page, [src/components/Landing.tsx] *)

Module Landing.

Record StoryListItem := {
  li_story_id : string;
  li_title : string;
  li_day_index : Z;
  li_max_days : Z;
  li_finished : bool;
  li_last_emotion : option string;
  top_ending : option string;
  ending_drift : Z;
  li_created_at : option string;
  updated_at : option string
}.

Record StoryListResponse := {
  stories_of : list StoryListItem;
  sl_total : Z
}.

Record DemoStory := {
  demo_id : string;
  demo_title : string;
  protagonist : string;
  genre : string;
  description : string
}.

Record DemoStoriesResponse := { demos_of : list DemoStory }.

Record CreateStoryResponse := {
  cs_story_id : string;
  cs_title : string;
  cs_day_index : Z;
  cs_max_days : Z;
  cs_protagonist : option string;
  characters : list string;
  threads : list string
}.

Inductive tab := Stories | Demos.

(** The component's state: one field per [useState]. *)
Record State := {
  stories : list StoryListItem;
  demos : list DemoStory;
  loading : bool;
  error : string;
  deletingId : option string;
  creatingFromDemo : option string;
  activeTab : tab
}.

Definition initial : State := {|
  stories := [];
  demos := [];
  loading := true;
  error := "";
  deletingId := None;
  creatingFromDemo := None;
  activeTab := Stories
|}.

Definition setStories (v : list StoryListItem) (s : State) : State :=
  {| stories := v; demos := demos s; loading := loading s;
     error := error s; deletingId := deletingId s;
     creatingFromDemo := creatingFromDemo s; activeTab := activeTab s |}.

Definition setDemos (v : list DemoStory) (s : State) : State :=
  {| stories := stories s; demos := v; loading := loading s;
     error := error s; deletingId := deletingId s;
     creatingFromDemo := creatingFromDemo s; activeTab := activeTab s |}.

Definition setLoading (v : bool) (s : State) : State :=
  {| stories := stories s; demos := demos s; loading := v;
     error := error s; deletingId := deletingId s;
     creatingFromDemo := creatingFromDemo s; activeTab := activeTab s |}.

Definition setError (v : string) (s : State) : State :=
  {| stories := stories s; demos := demos s; loading := loading s;
     error := v; deletingId := deletingId s;
     creatingFromDemo := creatingFromDemo s; activeTab := activeTab s |}.

Definition setDeletingId (v : option string) (s : State) : State :=
  {| stories := stories s; demos := demos s; loading := loading s;
     error := error s; deletingId := v;
     creatingFromDemo := creatingFromDemo s; activeTab := activeTab s |}.

Definition setCreatingFromDemo (v : option string) (s : State) : State :=
  {| stories := stories s; demos := demos s; loading := loading s;
     error := error s; deletingId := deletingId s;
     creatingFromDemo := v; activeTab := activeTab s |}.

Definition setActiveTab (v : tab) (s : State) : State :=
  {| stories := stories s; demos := demos s; loading := loading s;
     error := error s; deletingId := deletingId s;
     creatingFromDemo := creatingFromDemo s; activeTab := v |}.

(** The remote calls the page awaits; [CallLoadData] is the
    [Promise.all([api.listStories(), api.listDemoStories()])]. *)
Inductive call :=
| CallLoadData
| CallDeleteStory (storyId : string)
| CallCreateFromDemo (demoId : string) (totalDays : Z).

Definition reply (c : call) : Type :=
  match c with
  | CallLoadData => outcome (StoryListResponse * DemoStoriesResponse)
  | CallDeleteStory _ => outcome unit
  | CallCreateFromDemo _ _ => outcome CreateStoryResponse
  end.

(** The calls to the props of the page. *)
Inductive callback :=
| OnSelectStory (storyId : string)
| OnCreateStory
| OnSwitchToDemosHandled.

(** A handler: state updates and calls to the props up to the next
    [await], the awaited call, and what runs when it settles. *)
Inductive task :=
| Finish (f : State -> State) (out : list callback)
| Await (f : State -> State) (c : call) (k : reply c -> task).

Definition loadData : task :=
  Await (fun s => setError "" (setLoading true s)) CallLoadData
    (fun r =>
       match r with
       | Resolved (storiesRes, demosRes) =>
           Finish (fun s =>
             setLoading false
               (setDemos (demos_of demosRes)
                  (setStories (stories_of storiesRes) s))) []
       | Rejected err =>
           Finish (fun s =>
             setLoading false
               (setError (message_or "Failed to load data" err) s)) []
       end).

(** [handleDeleteStory].  [rendered] is the [stories] of the render the
    handler belongs to, which is what its closure reads when the call has
    settled; [confirmed] is the user's answer to [confirm(...)]. *)
Definition handleDeleteStory (rendered : list StoryListItem)
    (confirmed : bool) (storyId : string) : task :=
  if negb confirmed then Finish (fun s => s) []
  else
    Await (setDeletingId (Some storyId)) (CallDeleteStory storyId)
      (fun r =>
         match r with
         | Resolved _ =>
             Finish (fun s =>
               setDeletingId None
                 (setStories
                    (filter
                       (fun x => negb (String.eqb (li_story_id x) storyId))
                       rendered) s)) []
         | Rejected err =>
             Finish (fun s =>
               setDeletingId None
                 (setError (message_or "Failed to delete story" err) s)) []
         end).

Definition handleStartDemo (demoId : string) : task :=
  Await (setCreatingFromDemo (Some demoId)) (CallCreateFromDemo demoId 7)
    (fun r =>
       match r with
       | Resolved result =>
           Finish (fun s => s) [OnSelectStory (cs_story_id result)]
       | Rejected err =>
           Finish (fun s =>
             setCreatingFromDemo None
               (setError (message_or "Failed to start demo story" err) s))
             []
       end).

(** What can be clicked.  [DeleteButton id confirmed] carries the answer
    the user gives to the confirmation. *)
Inductive control :=
| CreateButton
| DismissError
| StoriesTab
| DemosTab
| RefreshButton
| StoryCard (storyId : string)
| DeleteButton (storyId : string) (confirmed : bool)
| StartDemoButton (demoId : string).

Definition option_eqb (a : option string) (b : string) : bool :=
  match a with
  | Some x => String.eqb x b
  | None => false
  end.

Definition has_story (s : State) (storyId : string) : bool :=
  existsb (fun x => String.eqb (li_story_id x) storyId) (stories s).

Definition has_demo (s : State) (demoId : string) : bool :=
  existsb (fun x => String.eqb (demo_id x) demoId) (demos s).

Definition on_stories (s : State) : bool :=
  match activeTab s with Stories => true | Demos => false end.

(** Whether a control is in the rendered page and not [disabled].  The
    story cards are rendered on the stories tab whenever the list is not
    empty; the demo cards on the demos tab once loading is over. *)
Definition enabled (s : State) (c : control) : bool :=
  match c with
  | CreateButton | StoriesTab | DemosTab => true
  | DismissError => truthy_string (error s)
  | RefreshButton => on_stories s && negb (loading s)
  | StoryCard i => on_stories s && has_story s i
  | DeleteButton i _ =>
      on_stories s && has_story s i && negb (option_eqb (deletingId s) i)
  | StartDemoButton i =>
      negb (on_stories s) && negb (loading s) && has_demo s i
      && negb (option_eqb (creatingFromDemo s) i)
  end.

(** The [onClick] of each control, in a render of state [s]. *)
Definition onClick (s : State) (c : control) : task :=
  match c with
  | CreateButton => Finish (fun x => x) [OnCreateStory]
  | DismissError => Finish (setError "") []
  | StoriesTab => Finish (setActiveTab Stories) []
  | DemosTab => Finish (setActiveTab Demos) []
  | RefreshButton => loadData
  | StoryCard i => Finish (fun x => x) [OnSelectStory i]
  | DeleteButton i confirmed => handleDeleteStory (stories s) confirmed i
  | StartDemoButton i => handleStartDemo i
  end.

Record pending := { p_call : call; p_resume : reply p_call -> task }.

(** An open landing page: its state, the calls in flight and the calls
    made to its props so far. *)
Record session := {
  view : State;
  awaiting : list pending;
  emitted : list callback
}.

Definition spawn (t : task) (ss : session) : session :=
  match t with
  | Finish f out =>
      {| view := f (view ss); awaiting := awaiting ss;
         emitted := (emitted ss ++ out)%list |}
  | Await f c k =>
      {| view := f (view ss);
         awaiting :=
           (awaiting ss ++ [ {| p_call := c; p_resume := k |} ])%list;
         emitted := emitted ss |}
  end.

(** Mounting the page: the effect calls [loadData]. *)
Definition mount : session :=
  spawn loadData {| view := initial; awaiting := []; emitted := [] |}.

(** The user activates a control, the [n]-th call in flight settles, or
    the prop [switchToDemos] has become true and the effect runs. *)
Inductive event :=
| Click (c : control)
| Settle (n : nat) (answer : forall c : call, reply c)
| SwitchToDemos.

Definition step (ss : session) (e : event) : session :=
  match e with
  | Click c =>
      if enabled (view ss) c then spawn (onClick (view ss) c) ss else ss
  | Settle n answer =>
      match nth_error (awaiting ss) n with
      | None => ss
      | Some p =>
          spawn (p_resume p (answer (p_call p)))
            {| view := view ss;
               awaiting := Reader.drop_nth n (awaiting ss);
               emitted := emitted ss |}
      end
  | SwitchToDemos =>
      spawn (Finish (setActiveTab Demos) [OnSwitchToDemosHandled]) ss
  end.

Definition steps (es : list event) (ss : session) : session :=
  fold_left step es ss.

(** A server on which deleting and creating succeed. *)
Definition succeeds (l : outcome (StoryListResponse * DemoStoriesResponse))
    (created : CreateStoryResponse) : forall c : call, reply c :=
  fun c =>
    match c as c0 return reply c0 with
    | CallLoadData => l
    | CallDeleteStory _ => Resolved tt
    | CallCreateFromDemo _ _ => Resolved created
    end.

(** A server on which everything fails with [err]. *)
Definition fails (err : thrown) : forall c : call, reply c :=
  fun c =>
    match c as c0 return reply c0 with
    | CallLoadData => Rejected err
    | CallDeleteStory _ => Rejected err
    | CallCreateFromDemo _ _ => Rejected err
    end.

(** The stories other than [storyId]. *)
Definition without (storyId : string) (l : list StoryListItem)
  : list StoryListItem :=
  filter (fun x => negb (String.eqb (li_story_id x) storyId)) l.

(** Sample data: a page that lists three stories and one demo, with
    nothing in flight, on either tab. *)
Definition an_item (i : string) : StoryListItem :=
  {| li_story_id := i; li_title := "A story"; li_day_index := 2;
     li_max_days := 7; li_finished := false; li_last_emotion := None;
     top_ending := None; ending_drift := 0; li_created_at := None;
     updated_at := None |}.

Definition a_demo : DemoStory :=
  {| demo_id := "d1"; demo_title := "A demo"; protagonist := "Ana";
     genre := "Dark Fantasy"; description := "..." |}.

Definition created (i : string) : CreateStoryResponse :=
  {| cs_story_id := i; cs_title := "A demo"; cs_day_index := 1;
     cs_max_days := 7; cs_protagonist := None; characters := [];
     threads := [] |}.

Definition listed (t : tab) : session :=
  {| view :=
       {| stories := [an_item "a"; an_item "b"; an_item "c"];
          demos := [a_demo]; loading := false; error := "";
          deletingId := None; creatingFromDemo := None; activeTab := t |};
     awaiting := [];
     emitted := [] |}.

Definition reloaded : outcome (StoryListResponse * DemoStoriesResponse) :=
  Resolved ({| stories_of := [an_item "b"; an_item "c"]; sl_total := 2 |},
            {| demos_of := [a_demo] |}).

(** The user deletes story [a] and, before the call has settled, story
    [b]; then both calls settle. *)
Definition two_deletes (a b : string) (answer : forall c : call, reply c)
  : list event :=
  [ Click (DeleteButton a true); Click (DeleteButton b true);
    Settle 0 answer; Settle 0 answer ].

(** The user deletes story [a] and presses Refresh; the refresh settles
    first, the delete after it. *)
Definition delete_across_refresh (a : string)
    (answer : forall c : call, reply c) : list event :=
  [ Click (DeleteButton a true); Click RefreshButton;
    Settle 1 answer; Settle 0 answer ].

End Landing.

(** ** The application shell *)

Module App.

Inductive View := LandingView | ReaderView.

Record State := {
  view : View;
  selectedStoryId : option string;
  switchToDemos : bool
}.

Definition initial : State :=
  {| view := LandingView; selectedStoryId := None; switchToDemos := false |}.

Definition handleSelectStory (storyId : string) (s : State) : State :=
  {| view := ReaderView; selectedStoryId := Some storyId;
     switchToDemos := switchToDemos s |}.

Definition handleCreateStory (s : State) : State :=
  {| view := view s; selectedStoryId := selectedStoryId s;
     switchToDemos := true |}.

Definition handleBack (s : State) : State :=
  {| view := LandingView; selectedStoryId := None;
     switchToDemos := switchToDemos s |}.

(** [onSwitchToDemosHandled={() => setSwitchToDemos(false)}] *)
Definition switchHandled (s : State) : State :=
  {| view := view s; selectedStoryId := selectedStoryId s;
     switchToDemos := false |}.

(** The calls the children make to the shell. *)
Inductive action :=
| SelectStory (storyId : string)
| CreateStory
| Back
| SwitchHandled.

Definition act (s : State) (a : action) : State :=
  match a with
  | SelectStory i => handleSelectStory i s
  | CreateStory => handleCreateStory s
  | Back => handleBack s
  | SwitchHandled => switchHandled s
  end.

(** The props the shell passes to the landing page:
    [onSelectStory={handleSelectStory}],
    [onCreateStory={handleCreateStory}] and
    [onSwitchToDemosHandled={() => setSwitchToDemos(false)}]. *)
Definition wire (s : State) (c : Landing.callback) : State :=
  match c with
  | Landing.OnSelectStory i => handleSelectStory i s
  | Landing.OnCreateStory => handleCreateStory s
  | Landing.OnSwitchToDemosHandled => switchHandled s
  end.

(** [view === "landing" && <Landing ... />] *)
Definition rendersLanding (s : State) : bool :=
  match view s with LandingView => true | ReaderView => false end.

(** [view === "reader" && selectedStoryId && <StoryReader ... />]: the
    empty string is falsy, like [null]. *)
Definition rendersReader (s : State) : option string :=
  match view s, selectedStoryId s with
  | ReaderView, Some i => if truthy_string i then Some i else None
  | _, _ => None
  end.

End App.

(** * Properties of the repository client *)

Module ApiFacts.
Import Api.

Lemma not_ok_not_204 (r : response) :
  ok r = false -> (status r =? 204) = false.
Proof.
  unfold ok. intros H.
  destruct (Z.eqb_spec (status r) 204) as [E|]; [|reflexivity].
  rewrite E in H. discriminate H.
Qed.

(** On a non-2xx response with a JSON body that is not [null], every
    operation of [operation] throws [new Error(detail || generic)]. *)
Lemma failure_not_ok (op : operation) (r : response) (d : js_value) :
  ok r = false ->
  payload r = Json (JsonValue d) ->
  failure op (Response r)
  = Some (Thrown PlainError (to_string (or_else d (generic_message op)))).
Proof.
  intros Hok Hbody.
  destruct op; cbn;
    unfold createStory, listStories, getStory, runDay, listChapters,
      getEmotions, generateEnding, listDemoStories, createStoryFromDemo,
      deleteStory, request, throw_detail, response_json;
    rewrite ?Hok, ?(not_ok_not_204 r Hok), Hbody; reflexivity.
Qed.


(** The health check never reads the body: its message is fixed. *)
Lemma healthCheck_not_ok (r : response) :
  ok r = false ->
  healthCheck (Response r)
  = Rejected (Thrown PlainError "Health check failed").
Proof. intros Hok. cbn. rewrite Hok. reflexivity. Qed.

(** A 204 without a body is a successful delete. *)
Example deleteStory_204 :
  deleteStory (Response {| status := 204; payload := NotJson "" |})
  = Resolved tt.
Proof. reflexivity. Qed.




End ApiFacts.

(** * Properties of the story reader *)

Module ReaderFacts.
Import Reader Spec Samples.

(** ** The dominant ending *)

Lemma insert_head (x : string * Z) (l : list (string * Z)) :
  hd_error (insert byScore x l)
  = match hd_error l with
    | None => Some x
    | Some y => if snd x <? snd y then Some y else Some x
    end.
Proof.
  destruct l as [|y l]; cbn; [reflexivity|].
  unfold byScore.
  destruct (Z.ltb_spec 0 (snd y - snd x)), (Z.ltb_spec (snd x) (snd y));
    cbn; try reflexivity; lia.
Qed.

(** The head of the sorted entries is the first maximal entry. *)
Lemma sort_head (v : list (string * Z)) :
  hd_error (sort byScore v) = first_maximal v.
Proof.
  induction v as [|e v IH]; cbn; [reflexivity|].
  rewrite insert_head, IH. reflexivity.
Qed.

(** Sorting rearranges the entries and keeps them all. *)
Lemma insert_length (x : string * Z) (l : list (string * Z)) :
  List.length (insert byScore x l) = S (List.length l).
Proof.
  induction l as [|y l IH]; cbn; [reflexivity|].
  destruct (0 <? byScore x y); cbn; [rewrite IH|]; reflexivity.
Qed.

Lemma sort_length (v : list (string * Z)) :
  List.length (sort byScore v) = List.length v.
Proof.
  induction v as [|e v IH]; cbn; [reflexivity|].
  rewrite insert_length, IH. reflexivity.
Qed.

(** [sort byScore] is a sort: it permutes the entries and leaves the
    scores in descending order. *)
Lemma insert_perm (x : string * Z) (l : list (string * Z)) :
  Permutation (insert byScore x l) (x :: l).
Proof.
  induction l as [|y l IH]; cbn; [apply Permutation_refl|].
  destruct (0 <? byScore x y); [|apply Permutation_refl].
  apply perm_trans with (y :: x :: l);
    [apply perm_skip, IH | apply perm_swap].
Qed.

Lemma sort_perm (v : list (string * Z)) : Permutation (sort byScore v) v.
Proof.
  induction v as [|e v IH]; cbn; [apply perm_nil|].
  apply perm_trans with (e :: sort byScore v);
    [apply insert_perm | apply perm_skip, IH].
Qed.

Lemma insert_sorted (x : string * Z) (l : list (string * Z)) :
  StronglySorted (fun a b => snd b <= snd a) l ->
  StronglySorted (fun a b => snd b <= snd a) (insert byScore x l).
Proof.
  induction 1 as [|y l Hl IH Hy]; cbn.
  - constructor; constructor.
  - unfold byScore at 1.
    destruct (Z.ltb_spec 0 (snd y - snd x)) as [Hlt|Hge].
    + constructor; [exact IH|].
      apply Forall_forall. intros e He.
      apply (Permutation_in _ (insert_perm x l)) in He.
      destruct He as [<-|He]; [lia|].
      rewrite Forall_forall in Hy. apply Hy, He.
    + constructor; [constructor; assumption|].
      constructor; [lia|].
      rewrite Forall_forall in Hy |- *. intros e He.
      specialize (Hy e He). lia.
Qed.

Lemma sort_sorted (v : list (string * Z)) :
  StronglySorted (fun a b => snd b <= snd a) (sort byScore v).
Proof.
  induction v as [|e v IH]; cbn; [constructor|].
  apply insert_sorted, IH.
Qed.

(** What [first_maximal] returns: an entry of the mapping that no entry
    exceeds and that every earlier entry is strictly below. *)
Lemma first_maximal_spec (v : list (string * Z)) (m : string * Z) :
  first_maximal v = Some m ->
  exists i : nat,
    nth_error v i = Some m
    /\ (forall e, In e v -> snd e <= snd m)
    /\ (forall j e, (j < i)%nat -> nth_error v j = Some e -> snd e < snd m).
Proof.
  revert m. induction v as [|x v IH]; cbn; intros m Hm; [discriminate|].
  destruct (first_maximal v) as [b|] eqn:Hb.
  - destruct (IH b eq_refl) as (i & Hi & Hmax & Hbefore).
    destruct (Z.ltb_spec (snd x) (snd b)) as [Hlt|Hge];
      injection Hm as <-.
    + exists (S i). split; [exact Hi|]. split.
      * intros e [<-|He]; [lia | apply Hmax, He].
      * intros [|j] e Hj He; cbn in He.
        -- injection He as <-. exact Hlt.
        -- apply (Hbefore j); [lia | exact He].
    + exists O. split; [reflexivity|]. split.
      * intros e [<-|He]; [lia|]. specialize (Hmax e He). lia.
      * intros j e Hj. lia.
  - injection Hm as <-. exists O. split; [reflexivity|]. split.
    + intros e [<-|He]; [lia|].
      destruct v; [contradiction|]. cbn in Hb.
      destruct (first_maximal v); [destruct (_ <? _)|]; discriminate.
    + intros j e Hj. lia.
Qed.

Lemma first_maximal_nonempty (e : string * Z) (v : list (string * Z)) :
  exists m, first_maximal (e :: v) = Some m.
Proof.
  cbn. destruct (first_maximal v) as [b|]; [|eauto].
  destruct (snd e <? snd b); eauto.
Qed.

Lemma getDominantEnding_first_maximal (s : State) (st : StoryStatus) :
  story s = Some st ->
  getDominantEnding s
  = match first_maximal (ending_vector st) with
    | Some e => Some {| es_type := fst e; es_score := snd e |}
    | None => None
    end.
Proof.
  intros Hst. unfold getDominantEnding. rewrite Hst.
  destruct (ending_vector st) as [|e v] eqn:Hv; [reflexivity|].
  cbv zeta. rewrite <- sort_head.
  destruct (sort _ (e :: v)); reflexivity.
Qed.

(** C4.  For every story whose [ending_vector] is not empty,
    [getDominantEnding] returns an entry of the mapping whose score no
    entry exceeds, and every entry before it in the mapping's order has a
    strictly smaller score: among entries that share the maximal score it
    is the first. *)
Theorem C4_dominant_ending (s : State) (st : StoryStatus) :
  story s = Some st ->
  ending_vector st <> [] ->
  exists (i : nat) (e : string * Z),
    nth_error (ending_vector st) i = Some e
    /\ getDominantEnding s = Some {| es_type := fst e; es_score := snd e |}
    /\ (forall e', In e' (ending_vector st) -> snd e' <= snd e)
    /\ (forall j e', (j < i)%nat ->
          nth_error (ending_vector st) j = Some e' -> snd e' < snd e).
Proof.
  intros Hst Hne.
  rewrite (getDominantEnding_first_maximal s st Hst).
  destruct (ending_vector st) as [|x v]; [contradiction|].
  destruct (first_maximal_nonempty x v) as (m & Hm).
  destruct (first_maximal_spec _ _ Hm) as (i & Hi & Hmax & Hbefore).
  exists i, m. rewrite Hm. auto.
Qed.

(** The specification's example: redemption and tragedy tie at 3,
    redemption was inserted first. *)
Example dominant_redemption :
  getDominantEnding
    (at_rest
       (a_story 4 7 false
          [("redemption", 3); ("tragedy", 3); ("mystery", 1)])
       [] None None)
  = Some {| es_type := "redemption"; es_score := 3 |}.
Proof. reflexivity. Qed.

Example dominant_later_maximum :
  getDominantEnding
    (at_rest
       (a_story 4 7 false
          [("mystery", 1); ("tragedy", 3); ("redemption", 3)])
       [] None None)
  = Some {| es_type := "tragedy"; es_score := 3 |}.
Proof. reflexivity. Qed.

Lemma C4_dominant_ending_witness :
  exists (i : nat) (e : string * Z),
    nth_error [("redemption", 3); ("tragedy", 3); ("mystery", 1)] i
    = Some e
    /\ getDominantEnding
         (at_rest
            (a_story 4 7 false
               [("redemption", 3); ("tragedy", 3); ("mystery", 1)])
            [] None None)
       = Some {| es_type := fst e; es_score := snd e |}
    /\ (forall e',
          In e' [("redemption", 3); ("tragedy", 3); ("mystery", 1)] ->
          snd e' <= snd e)
    /\ (forall j e', (j < i)%nat ->
          nth_error [("redemption", 3); ("tragedy", 3); ("mystery", 1)] j
          = Some e' ->
          snd e' < snd e).
Proof.
  apply (C4_dominant_ending
           (at_rest
              (a_story 4 7 false
                 [("redemption", 3); ("tragedy", 3); ("mystery", 1)])
              [] None None)
           (a_story 4 7 false
              [("redemption", 3); ("tragedy", 3); ("mystery", 1)])).
  - reflexivity.
  - discriminate.
Defined.

(** ** The current chapter *)

(** C10.  With a chapter list that is not empty and day 0 selected, the
    chapter displayed is the first of the list, exactly as when nothing
    is selected: the test [selectedChapter ? ... : chapters[0]] takes 0
    for absent, and no chapter is looked up by its day. *)
Theorem C10_day_zero_is_no_selection (s : State) (c : Chapter)
    (rest : list Chapter) :
  chapters s = c :: rest ->
  selectedChapter s = Some 0 ->
  currentChapter s = Some c
  /\ reader_panel s = ChapterPanel c
  /\ currentChapter s = currentChapter (setSelectedChapter None s).
Proof.
  intros Hcs Hsel.
  unfold reader_panel, ending_selected, currentChapter.
  cbn. rewrite Hsel, Hcs. cbn. auto.
Qed.

(** Where the lookup would have answered otherwise: the chapter of day 0
    is second in the list, the first is displayed. *)
Lemma C10_day_zero_is_no_selection_witness :
  currentChapter (at_rest (a_story 3 7 false []) [day2; prologue] None
                    (Some 0))
  = Some day2
  /\ reader_panel (at_rest (a_story 3 7 false []) [day2; prologue] None
                     (Some 0))
     = ChapterPanel day2
  /\ currentChapter (at_rest (a_story 3 7 false []) [day2; prologue] None
                       (Some 0))
     = currentChapter
         (setSelectedChapter None
            (at_rest (a_story 3 7 false []) [day2; prologue] None
               (Some 0))).
Proof.
  apply (C10_day_zero_is_no_selection
           (at_rest (a_story 3 7 false []) [day2; prologue] None (Some 0))
           day2 [prologue]); reflexivity.
Defined.

Example lookup_of_day_zero :
  find (fun c => day c =? 0) [day2; prologue] = Some prologue.
Proof. reflexivity. Qed.

(** Any other selected day is looked up. *)
Lemma currentChapter_lookup (s : State) (d : Z) :
  selectedChapter s = Some d ->
  d <> 0 ->
  currentChapter s = find (fun c => day c =? d) (chapters s).
Proof.
  intros Hsel Hd. unfold currentChapter. rewrite Hsel. cbn.
  destruct (Z.eqb_spec d 0); [contradiction|reflexivity].
Qed.

(** ** Loading *)

Section Load.

Variable storyId : string.
Variable answers : nat -> forall c : call, reply c.

Lemma run_loadStory_resolved (n : nat) (s : State) (st : StoryStatus)
    (cl : ChapterListResponse) :
  answers n (CallLoad storyId) = Resolved (st, cl) ->
  run (loadStory storyId) answers n s
  = (setLoading false
       (applyLoad st cl (setError "" (setLoading true s))),
     [CallLoad storyId]).
Proof. intros H. cbn. rewrite H. reflexivity. Qed.

Lemma run_loadStory_rejected (n : nat) (s : State) (err : thrown) :
  answers n (CallLoad storyId) = Rejected err ->
  run (loadStory storyId) answers n s
  = (setLoading false
       (setError (message_or "Failed to load story" err)
          (setError "" (setLoading true s))),
     [CallLoad storyId]).
Proof. intros H. cbn. rewrite H. reflexivity. Qed.

(** A load replaces the story and the chapter list wholesale; the
    chapters kept are the records that are not endings, in their
    order. *)
Lemma loadStory_replaces (n : nat) (s : State) (st : StoryStatus)
    (cl : ChapterListResponse) :
  answers n (CallLoad storyId) = Resolved (st, cl) ->
  story (fst (run (loadStory storyId) answers n s)) = Some st
  /\ chapters (fst (run (loadStory storyId) answers n s))
     = filter is_regular (chapters_of cl)
  /\ loading (fst (run (loadStory storyId) answers n s)) = false.
Proof.
  intros H. rewrite (run_loadStory_resolved n s st cl H).
  unfold applyLoad. cbn.
  destruct (find is_ending (chapters_of cl));
    destruct (filter is_regular (chapters_of cl)); cbn; auto.
Qed.

(** What a successful load does to the selection: the day of the first
    chapter kept, whatever was selected; untouched when no chapter is
    kept. *)
Lemma loadStory_selects_first (n : nat) (s : State) (st : StoryStatus)
    (cl : ChapterListResponse) :
  answers n (CallLoad storyId) = Resolved (st, cl) ->
  selectedChapter (fst (run (loadStory storyId) answers n s))
  = match filter is_regular (chapters_of cl) with
    | c :: _ => Some (day c)
    | [] => selectedChapter s
    end.
Proof.
  intros H. rewrite (run_loadStory_resolved n s st cl H).
  unfold applyLoad. cbn.
  destruct (find is_ending (chapters_of cl));
    destruct (filter is_regular (chapters_of cl)); reflexivity.
Qed.

(** What a successful load does to the ending. *)
Lemma loadStory_ending (n : nat) (s : State) (st : StoryStatus)
    (cl : ChapterListResponse) :
  answers n (CallLoad storyId) = Resolved (st, cl) ->
  ending (fst (run (loadStory storyId) answers n s))
  = match find is_ending (chapters_of cl) with
    | Some c => Some (project_ending c)
    | None => ending s
    end.
Proof.
  intros H. rewrite (run_loadStory_resolved n s st cl H).
  unfold applyLoad. cbn.
  destruct (find is_ending (chapters_of cl));
    destruct (filter is_regular (chapters_of cl)); reflexivity.
Qed.

(** A failed load keeps the story, the chapters, the ending and the
    selection, and records its message. *)
Lemma loadStory_failure (n : nat) (s : State) (err : thrown) :
  answers n (CallLoad storyId) = Rejected err ->
  snapshot (fst (run (loadStory storyId) answers n s)) = snapshot s
  /\ selectedChapter (fst (run (loadStory storyId) answers n s))
     = selectedChapter s
  /\ error (fst (run (loadStory storyId) answers n s))
     = message_or "Failed to load story" err.
Proof.
  intros H. rewrite (run_loadStory_rejected n s err H). cbn. auto.
Qed.

End Load.

(** The chapters kept by a load contain no ending, and the ending is
    projected from the first ending record only. *)
Lemma regular_chapters_no_ending (cs : list Chapter) :
  forallb is_regular (filter is_regular cs) = true.
Proof.
  induction cs as [|c cs IH]; cbn; [reflexivity|].
  destruct (is_regular c) eqn:E; cbn; [rewrite E|]; exact IH.
Qed.

Lemma find_app_first {A} (p : A -> bool) (l extra : list A) (x : A) :
  find p l = Some x -> find p (l ++ extra) = Some x.
Proof.
  induction l as [|y l IH]; cbn; [discriminate|].
  destruct (p y); [trivial | exact IH].
Qed.

Lemma largest_day_bound (cs : list Chapter) (m : Z) :
  largest_day cs = Some m -> forall c, In c cs -> day c <= m.
Proof.
  revert m. induction cs as [|x cs IH]; cbn; intros m Hm c Hc;
    [contradiction|].
  destruct (largest_day cs) as [b|] eqn:Hb.
  - injection Hm as <-. destruct Hc as [<-|Hc]; [lia|].
    specialize (IH b eq_refl c Hc). lia.
  - injection Hm as <-. destruct Hc as [<-|Hc]; [lia|].
    destruct cs; [contradiction|]. cbn in Hb.
    destruct (largest_day cs); discriminate.
Qed.

Lemma largest_day_attained (cs : list Chapter) (m : Z) :
  largest_day cs = Some m -> exists c, In c cs /\ day c = m.
Proof.
  revert m. induction cs as [|x cs IH]; cbn; intros m Hm; [discriminate|].
  destruct (largest_day cs) as [b|].
  - injection Hm as <-. destruct (IH b eq_refl) as (c & Hc & Hd).
    destruct (Z.max_spec (day x) b) as [[_ E]|[_ E]]; rewrite E.
    + exists c. auto.
    + exists x. auto.
  - injection Hm as <-. exists x. auto.
Qed.

Lemma largest_day_head (c : Chapter) (rest : list Chapter) :
  (forall c', In c' rest -> day c' <= day c) ->
  largest_day (c :: rest) = Some (day c).
Proof.
  intros H. cbn. destruct (largest_day rest) as [m|] eqn:Hm;
    [|reflexivity].
  destruct (largest_day_attained rest m Hm) as (c' & Hc' & <-).
  f_equal. apply Z.max_l, H, Hc'.
Qed.

(** Where the selection after a load is the most recent chapter: when the
    repository lists the most recent chapter first. *)
Lemma loadStory_selects_latest_when_first (storyId : string)
    (answers : nat -> forall c : call, reply c) (n : nat) (s : State)
    (st : StoryStatus) (cl : ChapterListResponse) (c : Chapter)
    (rest : list Chapter) :
  answers n (CallLoad storyId) = Resolved (st, cl) ->
  filter is_regular (chapters_of cl) = c :: rest ->
  (forall c', In c' rest -> day c' <= day c) ->
  selectedChapter (fst (run (loadStory storyId) answers n s))
  = largest_day (filter is_regular (chapters_of cl)).
Proof.
  intros Hl Hf Hmax.
  rewrite (loadStory_selects_first storyId answers n s st cl Hl), Hf.
  symmetry. apply largest_day_head, Hmax.
Qed.

(** C1, on the order the specification gives for the repository
    (day-ascending): after a successful load of the prologue and days 1
    and 2, with day 1 selected by hand before, the selection is day 0,
    the first chapter of the list, not the largest day, 2; and day 0
    being falsy, the chapter displayed is the first of the list. *)
Theorem C1_first_chapter_selected :
  selectedChapter
    (fst (run (loadStory sid)
            (fun _ => online (a_story 3 7 false [])
                        [prologue; day1; day2])
            0
            (at_rest (a_story 3 7 false []) [prologue; day1; day2] None
               (Some 1))))
  = Some 0
  /\ largest_day [prologue; day1; day2] = Some 2
  /\ currentChapter
       (fst (run (loadStory sid)
               (fun _ => online (a_story 3 7 false [])
                           [prologue; day1; day2])
               0
               (at_rest (a_story 3 7 false []) [prologue; day1; day2] None
                  (Some 1))))
     = Some prologue.
Proof. split; [reflexivity | split; reflexivity]. Qed.

(** ** Advancing a day and generating the ending *)

Section Mutations.

Variable storyId : string.
Variable answers : nat -> forall c : call, reply c.

(** After a day that was generated, [handleContinue] is a load: the
    state it ends in is the state of [loadStory] run from the same
    state, with the modal closed, the first progress message and
    [generating] off. *)
Lemma handleContinue_resolved (emotion : string) (r : RunDayResponse)
    (s : State) :
  answers 0%nat (day_request storyId emotion) = Resolved r ->
  run (handleContinue storyId emotion) answers 0 s
  = (setGenerating false
       (setLoadingMessage (hd "" LOADING_MESSAGES)
          (setShowModal false
             (fst (run (loadStory storyId)
                     (fun n => answers (S n)) 0 s)))),
     [day_request storyId emotion; CallLoad storyId]).
Proof.
  unfold day_request. intros H. cbn. rewrite H. cbn.
  destruct (answers 1%nat (CallLoad storyId)) as [[st cl]|err]; cbn;
    [|reflexivity].
  unfold applyLoad. cbn.
  destruct (find is_ending (chapters_of cl));
    destruct (filter is_regular (chapters_of cl)); reflexivity.
Qed.

Lemma handleContinue_rejected (emotion : string) (err : thrown)
    (s : State) :
  answers 0%nat (day_request storyId emotion) = Rejected err ->
  run (handleContinue storyId emotion) answers 0 s
  = (setGenerating false
       (setError (message_or "Failed to continue story" err)
          (setError ""
             (setLoadingMessage (hd "" LOADING_MESSAGES)
                (setGenerating true (setShowModal false s))))),
     [day_request storyId emotion]).
Proof. unfold day_request. intros H. cbn. rewrite H. reflexivity. Qed.

Lemma handleGenerateEnding_rejected (err : thrown) (s : State) :
  answers 0%nat (CallGenerateEnding storyId) = Rejected err ->
  run (handleGenerateEnding storyId) answers 0 s
  = (setGeneratingEnding false
       (setError (message_or "Failed to generate ending" err)
          (setLoadingMessage "Crafting the perfect ending..."
             (setGeneratingEnding true s))),
     [CallGenerateEnding storyId]).
Proof. intros H. cbn. rewrite H. reflexivity. Qed.


(** C6.  When the remote call of [handleContinue] or of
    [handleGenerateEnding] fails, from a state with nothing in flight:
    the story snapshot, the chapter list and the ending are those from
    before, nothing is in flight afterwards, [error] holds the
    failure's message, and the handler made that one call and no
    other. *)
Theorem C6_failure_keeps_state (s : State) (err : thrown) :
  idle s = true ->
  (forall emotion,
      answers 0%nat (day_request storyId emotion) = Rejected err ->
      snapshot (fst (run (handleContinue storyId emotion) answers 0 s))
      = snapshot s
      /\ idle (fst (run (handleContinue storyId emotion) answers 0 s))
         = true
      /\ error (fst (run (handleContinue storyId emotion) answers 0 s))
         = message_or "Failed to continue story" err
      /\ snd (run (handleContinue storyId emotion) answers 0 s)
         = [day_request storyId emotion])
  /\ (answers 0%nat (CallGenerateEnding storyId) = Rejected err ->
      snapshot (fst (run (handleGenerateEnding storyId) answers 0 s))
      = snapshot s
      /\ idle (fst (run (handleGenerateEnding storyId) answers 0 s))
         = true
      /\ error (fst (run (handleGenerateEnding storyId) answers 0 s))
         = message_or "Failed to generate ending" err
      /\ snd (run (handleGenerateEnding storyId) answers 0 s)
         = [CallGenerateEnding storyId]).
Proof.
  unfold idle. intros Hidle.
  apply andb_prop in Hidle as [Hidle Hge].
  apply andb_prop in Hidle as [Hl Hg].
  split.
  - intros emotion H. rewrite (handleContinue_rejected emotion err s H).
    cbn. rewrite Hl, Hge. auto.
  - intros H. rewrite (handleGenerateEnding_rejected err s H).
    cbn. rewrite Hl, Hg. auto.
Qed.

End Mutations.


(** The response of the submission plays no part: two servers that
    differ only in it leave the same state. *)
Lemma handleContinue_ignores_response (storyId emotion : string)
    (l : outcome (StoryStatus * ChapterListResponse))
    (r r' : RunDayResponse) (e : outcome EndingResponse) (s : State) :
  run (handleContinue storyId emotion)
    (fun _ => server l (Resolved r) e) 0 s
  = run (handleContinue storyId emotion)
      (fun _ => server l (Resolved r') e) 0 s.
Proof. destruct l as [[st cl]|err]; reflexivity. Qed.

(** Against a load made by a reader that has just been opened: the story
    and the chapters are the same; the ending is the same when the
    chapter list holds an ending, and otherwise the reader that advanced
    keeps the ending it had. *)
Lemma handleContinue_and_first_load (storyId emotion : string)
    (answers : nat -> forall c : call, reply c) (r : RunDayResponse)
    (st : StoryStatus) (cl : ChapterListResponse) (s : State) :
  answers 0%nat (day_request storyId emotion) = Resolved r ->
  answers 1%nat (CallLoad storyId) = Resolved (st, cl) ->
  story (fst (run (handleContinue storyId emotion) answers 0 s))
  = story (fst (run (loadStory storyId) (fun n => answers (S n)) 0 initial))
  /\ chapters (fst (run (handleContinue storyId emotion) answers 0 s))
     = chapters
         (fst (run (loadStory storyId) (fun n => answers (S n)) 0 initial))
  /\ ending (fst (run (handleContinue storyId emotion) answers 0 s))
     = match find is_ending (chapters_of cl) with
       | Some c => Some (project_ending c)
       | None => ending s
       end.
Proof.
  intros Hr Hl.
  rewrite (handleContinue_resolved storyId answers emotion r s Hr).
  pose proof (loadStory_replaces storyId (fun n => answers (S n)) 0%nat
                s st cl Hl) as (Hs1 & Hc1 & _).
  pose proof (loadStory_replaces storyId (fun n => answers (S n)) 0%nat
                initial st cl Hl) as (Hs2 & Hc2 & _).
  pose proof (loadStory_ending storyId (fun n => answers (S n)) 0%nat
                s st cl Hl) as He.
  cbn [fst]. split; [|split].
  - change (story (fst (run (loadStory storyId)
              (fun n => answers (S n)) 0 s))
            = story (fst (run (loadStory storyId)
              (fun n => answers (S n)) 0 initial))).
    congruence.
  - change (chapters (fst (run (loadStory storyId)
              (fun n => answers (S n)) 0 s))
            = chapters (fst (run (loadStory storyId)
              (fun n => answers (S n)) 0 initial))).
    congruence.
  - exact He.
Qed.

Lemma C6_failure_keeps_state_witness :
  (snapshot
     (fst (run (handleContinue sid "kind")
             (fun _ => offline (a_story 3 7 false []) [prologue]) 0
             (at_rest (a_story 3 7 false []) [prologue] None (Some 0))))
   = snapshot (at_rest (a_story 3 7 false []) [prologue] None (Some 0))
   /\ idle
        (fst (run (handleContinue sid "kind")
                (fun _ => offline (a_story 3 7 false []) [prologue]) 0
                (at_rest (a_story 3 7 false []) [prologue] None (Some 0))))
      = true
   /\ error
        (fst (run (handleContinue sid "kind")
                (fun _ => offline (a_story 3 7 false []) [prologue]) 0
                (at_rest (a_story 3 7 false []) [prologue] None (Some 0))))
      = "Failed to fetch"
   /\ snd (run (handleContinue sid "kind")
             (fun _ => offline (a_story 3 7 false []) [prologue]) 0
             (at_rest (a_story 3 7 false []) [prologue] None (Some 0)))
      = [day_request sid "kind"])
  /\ (snapshot
        (fst (run (handleGenerateEnding sid)
                (fun _ => offline (a_story 3 7 false []) [prologue]) 0
                (at_rest (a_story 3 7 false []) [prologue] None (Some 0))))
      = snapshot (at_rest (a_story 3 7 false []) [prologue] None (Some 0))
      /\ idle
           (fst (run (handleGenerateEnding sid)
                   (fun _ => offline (a_story 3 7 false []) [prologue]) 0
                   (at_rest (a_story 3 7 false []) [prologue] None
                      (Some 0))))
         = true
      /\ error
           (fst (run (handleGenerateEnding sid)
                   (fun _ => offline (a_story 3 7 false []) [prologue]) 0
                   (at_rest (a_story 3 7 false []) [prologue] None
                      (Some 0))))
         = "Failed to fetch"
      /\ snd (run (handleGenerateEnding sid)
                (fun _ => offline (a_story 3 7 false []) [prologue]) 0
                (at_rest (a_story 3 7 false []) [prologue] None (Some 0)))
         = [CallGenerateEnding sid]).
Proof.
  destruct (C6_failure_keeps_state sid
              (fun _ => offline (a_story 3 7 false []) [prologue])
              (at_rest (a_story 3 7 false []) [prologue] None (Some 0))
              (Thrown TypeError "Failed to fetch") eq_refl) as [Hday Hend].
  split.
  - exact (Hday "kind" eq_refl).
  - exact (Hend eq_refl).
Defined.

(** ** The ending across reloads *)

(** C7, as the specification states it, fails: a reader holds the ending
    "Dawn" that [generateEnding] returned; the reload finds a persisted
    ending record titled "Dusk" and replaces the ending held by the
    projection of that record. *)
Lemma C7_reload_replaces_ending :
  ending (at_rest finished_story [prologue] (Some (an_ending "Dawn"))
            (Some (-1)))
  = Some (an_ending "Dawn")
  /\ ending
       (fst (run (loadStory sid)
               (fun _ => online finished_story
                           [prologue; ending_record (Some "Dusk")])
               0
               (at_rest finished_story [prologue]
                  (Some (an_ending "Dawn")) (Some (-1)))))
     = Some (project_ending (ending_record (Some "Dusk")))
  /\ project_ending (ending_record (Some "Dusk")) <> an_ending "Dawn".
Proof.
  split; [reflexivity|]. split; [reflexivity|]. discriminate.
Qed.

(** The same inside [handleGenerateEnding]: the ending the call returned
    is set, and the reload that follows replaces it by the projection of
    the persisted record, here one without a title or nested data. *)
Example generated_ending_replaced :
  ending
    (fst (run (handleGenerateEnding sid)
            (fun _ => online finished_story [prologue; ending_record None])
            0
            (at_rest finished_story [prologue] None (Some 0))))
  = Some {| ending_type := "unknown"; e_title := "The End";
            text := "text"; word_count := 100; resolved_threads := [];
            unresolved_threads := [] |}.
Proof. reflexivity. Qed.

(** C7, amended.  In a reader that holds an ending, every successful
    reload leaves an ending in place.  When the reloaded chapter list
    has no ending record the ending held is unchanged; when it has one,
    the ending becomes the projection of the first ending record, which
    is the ending held whenever that was projected from the same record,
    as it is when the list only grew since. *)
Theorem C7_reload_keeps_an_ending (storyId : string)
    (answers : nat -> forall c : call, reply c) (n : nat) (s : State)
    (e : EndingResponse) (st : StoryStatus) (cl : ChapterListResponse) :
  ending s = Some e ->
  answers n (CallLoad storyId) = Resolved (st, cl) ->
  ending (fst (run (loadStory storyId) answers n s)) <> None
  /\ (find is_ending (chapters_of cl) = None ->
      ending (fst (run (loadStory storyId) answers n s)) = Some e)
  /\ (forall c,
        find is_ending (chapters_of cl) = Some c ->
        ending (fst (run (loadStory storyId) answers n s))
        = Some (project_ending c))
  /\ (forall c cs extra,
        find is_ending cs = Some c ->
        e = project_ending c ->
        chapters_of cl = (cs ++ extra)%list ->
        ending (fst (run (loadStory storyId) answers n s)) = Some e).
Proof.
  intros He Hl.
  rewrite (loadStory_ending storyId answers n s st cl Hl).
  split; [|split; [|split]].
  - destruct (find is_ending (chapters_of cl)); [discriminate|].
    rewrite He. discriminate.
  - intros ->. exact He.
  - intros c ->. reflexivity.
  - intros c cs extra Hc -> Hcl.
    rewrite Hcl, (find_app_first _ cs extra c Hc). reflexivity.
Qed.

Lemma C7_reload_keeps_an_ending_witness :
  ending
    (fst (run (loadStory sid)
            (fun _ => online finished_story
                        [prologue; ending_record (Some "Dusk"); day1])
            0
            (at_rest finished_story [prologue]
               (Some (project_ending (ending_record (Some "Dusk"))))
               (Some (-1)))))
  = Some (project_ending (ending_record (Some "Dusk"))).
Proof.
  apply (C7_reload_keeps_an_ending sid
           (fun _ => online finished_story
                       [prologue; ending_record (Some "Dusk"); day1])
           0%nat
           (at_rest finished_story [prologue]
              (Some (project_ending (ending_record (Some "Dusk"))))
              (Some (-1)))
           (project_ending (ending_record (Some "Dusk")))
           finished_story
           {| chapters_of := [prologue; ending_record (Some "Dusk"); day1];
              total := 3 |}
           eq_refl eq_refl)
    with (c := ending_record (Some "Dusk"))
         (cs := [prologue; ending_record (Some "Dusk")])
         (extra := [day1]);
    reflexivity.
Defined.

(** ** The error banner *)

(** C9, as the specification states it, fails: the component has one
    [error] string for all operations.  After the ending fails its
    message is recorded; the day that fails next overwrites it, and the
    ending's failure is recorded nowhere any more. *)
Lemma C9_one_error_slot :
  error
    (fst (run (handleGenerateEnding sid)
            (fun _ => failing overrun_story [prologue]) 0
            (at_rest overrun_story [prologue] None (Some 0))))
  = "Failed to generate ending"
  /\ error
       (fst (run (handleContinue sid "kind")
               (fun _ => failing overrun_story [prologue]) 0
               (fst (run (handleGenerateEnding sid)
                       (fun _ => failing overrun_story [prologue]) 0
                       (at_rest overrun_story [prologue] None (Some 0))))))
     = "Failed to run day"
  /\ "Failed to run day" <> "Failed to generate ending".
Proof.
  split; [reflexivity|]. split; [reflexivity|]. discriminate.
Qed.

(** Starting a load or a day clears the message before any answer is
    in; starting an ending does not. *)
Lemma start_clears_error (storyId emotion : string) (ss : session) :
  error (view (spawn (loadStory storyId) ss)) = ""
  /\ error (view (spawn (handleContinue storyId emotion) ss)) = ""
  /\ error (view (spawn (handleGenerateEnding storyId) ss))
     = error (view ss).
Proof. repeat split. Qed.

Lemma setError_same_but_error (m : string) (s : State) :
  same_but_error s (setError m s).
Proof. unfold same_but_error. cbn. repeat split. Qed.

(** C9, amended.  All operations share one error slot: a failure of the
    load, of the day or of the ending stores its message in [error]
    whatever was recorded there.  Dismissing the banner sets [error] to
    the empty string and alters nothing else: no other field of the
    state, and no call in flight. *)
Theorem C9_shared_error_slot (storyId : string)
    (answers : nat -> forall c : call, reply c) (s : State)
    (err : thrown) :
  (answers 0%nat (CallLoad storyId) = Rejected err ->
   error (fst (run (loadStory storyId) answers 0 s))
   = message_or "Failed to load story" err)
  /\ (forall emotion,
        answers 0%nat (day_request storyId emotion) = Rejected err ->
        error (fst (run (handleContinue storyId emotion) answers 0 s))
        = message_or "Failed to continue story" err)
  /\ (answers 0%nat (CallGenerateEnding storyId) = Rejected err ->
      error (fst (run (handleGenerateEnding storyId) answers 0 s))
      = message_or "Failed to generate ending" err)
  /\ (forall ss : session,
        awaiting (step storyId ss (Click DismissError)) = awaiting ss
        /\ same_but_error (view ss)
             (view (step storyId ss (Click DismissError)))
        /\ (enabled (view ss) DismissError = true ->
            error (view (step storyId ss (Click DismissError))) = "")).
Proof.
  split; [|split; [|split]].
  - intros H. rewrite (run_loadStory_rejected storyId answers 0%nat s err H).
    reflexivity.
  - intros emotion H.
    rewrite (handleContinue_rejected storyId answers emotion err s H).
    reflexivity.
  - intros H.
    rewrite (handleGenerateEnding_rejected storyId answers err s H).
    reflexivity.
  - intros ss. cbn.
    destruct (enabled (view ss) DismissError); cbn.
    + split; [reflexivity|]. split; [|reflexivity].
      apply setError_same_but_error.
    + split; [reflexivity|]. split; [|discriminate].
      unfold same_but_error. repeat split.
Qed.

Lemma C9_shared_error_slot_witness :
  error
    (fst (run (handleContinue sid "kind")
            (fun _ => failing overrun_story [prologue]) 0
            (fst (run (handleGenerateEnding sid)
                    (fun _ => failing overrun_story [prologue]) 0
                    (at_rest overrun_story [prologue] None (Some 0))))))
  = "Failed to run day"
  /\ error
       (fst (run (handleGenerateEnding sid)
               (fun _ => failing overrun_story [prologue]) 0
               (at_rest overrun_story [prologue] None (Some 0))))
     = "Failed to generate ending".
Proof.
  split.
  - exact (proj1 (proj2
      (C9_shared_error_slot sid
         (fun _ => failing overrun_story [prologue])
         (fst (run (handleGenerateEnding sid)
                 (fun _ => failing overrun_story [prologue]) 0
                 (at_rest overrun_story [prologue] None (Some 0))))
         (Thrown PlainError "Failed to run day"))) "kind" eq_refl).
  - exact (proj1 (proj2 (proj2
      (C9_shared_error_slot sid
         (fun _ => failing overrun_story [prologue])
         (at_rest overrun_story [prologue] None (Some 0))
         (Thrown PlainError "Failed to generate ending")))) eq_refl).
Defined.

(** ** The controls and the calls in flight *)

(** The two header buttons are rendered exactly on the conditions of the
    specification. *)
Lemma continue_shown_iff (st : StoryStatus) :
  continue_shown st = true
  <-> finished st = false /\ day_index st <= max_days st.
Proof.
  unfold continue_shown.
  rewrite andb_true_iff, negb_true_iff, Z.leb_le. reflexivity.
Qed.

Lemma ending_shown_iff (st : StoryStatus) (s : State) :
  ending_shown st s = true
  <-> (finished st = true \/ max_days st < day_index st)
      /\ ending s = None.
Proof.
  unfold ending_shown, has_ending.
  rewrite andb_true_iff, orb_true_iff, negb_true_iff, Z.ltb_lt.
  destruct (ending s); split; intros [H1 H2]; split; auto; discriminate.
Qed.

Example scenario_day_4_of_7 :
  continue_shown (a_story 4 7 false []) = true
  /\ ending_shown (a_story 4 7 false [])
       (at_rest (a_story 4 7 false []) [prologue] None None) = false.
Proof. split; reflexivity. Qed.

Example scenario_day_8_of_7 :
  continue_shown overrun_story = false
  /\ ending_shown overrun_story
       (at_rest overrun_story [prologue] None None) = true.
Proof. split; reflexivity. Qed.

(** A header button whose own operation is in flight is [disabled]:
    activating it changes nothing and starts no call. *)
Lemma header_buttons_refuse (storyId : string) (ss : session) :
  (generating (view ss) = true \/ loading (view ss) = true ->
   step storyId ss (Click ContinueButton) = ss)
  /\ (generatingEnding (view ss) = true ->
      step storyId ss (Click GenerateEndingButton) = ss).
Proof.
  split.
  - intros H. cbn. unfold enabled, continue_disabled.
    destruct (story (view ss)); [|reflexivity].
    destruct H as [-> | ->]; rewrite ?orb_true_r, ?andb_false_r;
      reflexivity.
  - intros H. cbn. unfold enabled, ending_disabled.
    destruct (story (view ss)); [|reflexivity].
    rewrite H, andb_false_r. reflexivity.
Qed.

Example nextMessage_wraps :
  nextMessage "Threads intertwine..." = "Weaving the next chapter..."
  /\ nextMessage "Weaving the next chapter..." = "The story unfolds..."
  /\ nextMessage "Crafting the perfect ending..."
     = "Weaving the next chapter...".
Proof. repeat split. Qed.

(** *** One mutation at a time, as far as the header goes *)

Lemma phase_mount (storyId : string) : phase storyId (mount storyId).
Proof. apply Opening; reflexivity. Qed.

(** The two header buttons are never rendered together. *)
Lemma shown_exclusive (st : StoryStatus) (s : State) :
  continue_shown st = true -> ending_shown st s = false.
Proof.
  unfold continue_shown, ending_shown. intros H.
  apply andb_prop in H as [Hf Hd]. apply negb_true_iff in Hf.
  apply Z.leb_le in Hd. rewrite Hf. cbn.
  destruct (Z.ltb_spec (max_days st) (day_index st)); [lia|reflexivity].
Qed.

Lemma eligible_shown (s : State) (st : StoryStatus) :
  story s = Some st -> eligible s -> continue_shown st = true.
Proof. intros Hst (st' & Hst' & H). congruence. Qed.

Lemma overdue_shown (s : State) (st : StoryStatus) :
  story s = Some st -> overdue s -> continue_shown st = false.
Proof. intros Hst (st' & Hst' & H). congruence. Qed.

(** Updates that leave alone what the phases speak of, or close the
    modal, keep the phase. *)
Lemma phase_frame (storyId : string) (ss : session) (f : State -> State) :
  story (f (view ss)) = story (view ss) ->
  (showModal (f (view ss)) = showModal (view ss)
   \/ showModal (f (view ss)) = false) ->
  generating (f (view ss)) = generating (view ss) ->
  generatingEnding (f (view ss)) = generatingEnding (view ss) ->
  loading (f (view ss)) = loading (view ss) ->
  phase storyId ss ->
  phase storyId {| view := f (view ss); awaiting := awaiting ss |}.
Proof.
  intros Hst Hmod Hg Hge Hl H.
  assert (Hel : eligible (view ss) -> eligible (f (view ss))).
  { intros (st & E1 & E2). exists st. split; congruence. }
  assert (Hov : overdue (view ss) -> overdue (f (view ss))).
  { intros (st & E1 & E2). exists st. split; congruence. }
  assert (Hm0 : showModal (view ss) = false
                -> showModal (f (view ss)) = false).
  { destruct Hmod; congruence. }
  destruct H as [Ha Hs Hm|Ha Hm|em Ha Hg' Hm He|Ha Hg' Hm He|Ha Hg' Hm Ho
                |Ha Hg' Hl' Hm].
  - apply Opening; cbn; [exact Ha | congruence | auto].
  - apply Idle; cbn; [exact Ha|].
    intros E. apply Hel, Hm. destruct Hmod; congruence.
  - apply (Advancing storyId _ em); cbn;
      [exact Ha | congruence | auto | auto].
  - apply AdvancingReload; cbn; [exact Ha | congruence | auto | auto].
  - apply GeneratingEnding; cbn; [exact Ha | congruence | auto | auto].
  - apply EndingReload; cbn; [exact Ha | congruence | congruence | auto].
Qed.

(** Every control but "Start Writing" keeps the reader in a phase. *)
Lemma phase_click (storyId : string) (ss : session) (c : control) :
  c <> StartWritingButton ->
  phase storyId ss ->
  phase storyId (step storyId ss (Click c)).
Proof.
  intros Hc H. cbn [step].
  destruct (enabled (view ss) c) eqn:En; [|exact H].
  unfold enabled in En.
  destruct (story (view ss)) as [st|] eqn:Hst; [|discriminate].
  assert (Hex : forall s', ending_shown st s' = true
                           -> continue_shown st = false).
  { intros s' E. destruct (continue_shown st) eqn:C; [|reflexivity].
    rewrite (shown_exclusive st s' C) in E. discriminate. }
  destruct c as [| | | | |d| | |e]; try contradiction; cbn [onClick spawn];
    try (apply phase_frame; cbn; auto; fail).
  - (* the Continue button: only when idle, and the story allows it *)
    apply andb_prop in En as [Esh Edis]. apply negb_true_iff in Edis.
    unfold continue_disabled in Edis.
    apply orb_false_iff in Edis as [El Eg].
    destruct H as [Ha Hs Hm|Ha Hm|em Ha Hg' Hm He|Ha Hg' Hm He|Ha Hg' Hm Ho
                  |Ha Hg' Hl' Hm]; try congruence.
    + apply Idle; cbn; [exact Ha|]. intros _. exists st. auto.
    + pose proof (overdue_shown _ st Hst Ho). congruence.
  - (* the Generate Ending button: only when idle, the modal closed *)
    apply andb_prop in En as [Esh Edis]. apply negb_true_iff in Edis.
    unfold ending_disabled in Edis. specialize (Hex _ Esh).
    destruct H as [Ha Hs Hm|Ha Hm|em Ha Hg' Hm He|Ha Hg' Hm He|Ha Hg' Hm Ho
                  |Ha Hg' Hl' Hm]; try congruence.
    + unfold handleGenerateEnding.
      apply GeneratingEnding; cbn;
        [rewrite Ha; reflexivity | reflexivity | | ].
      * destruct (showModal (view ss)); [|reflexivity].
        pose proof (eligible_shown _ st Hst (Hm eq_refl)). congruence.
      * exists st. auto.
    + pose proof (eligible_shown _ st Hst He). congruence.
    + pose proof (eligible_shown _ st Hst He). congruence.
  - (* the modal's submit: only when the modal is open, hence idle *)
    apply andb_prop in En as [Esh _].
    destruct H as [Ha Hs Hm|Ha Hm|em Ha Hg' Hm He|Ha Hg' Hm He|Ha Hg' Hm Ho
                  |Ha Hg' Hl' Hm]; try congruence.
    unfold handleContinue.
    apply (Advancing storyId _ e); cbn;
      [rewrite Ha; reflexivity | reflexivity | reflexivity |].
    destruct (Hm Esh) as (st' & E1 & E2). exists st'. auto.
Qed.

Lemma nth_error_single {A} (x y : A) (n : nat) :
  nth_error [x] n = Some y -> n = 0%nat /\ y = x.
Proof.
  destruct n as [|n]; cbn.
  - intros [= <-]. auto.
  - destruct n; discriminate.
Qed.

Lemma applyLoad_frame (st : StoryStatus) (cl : ChapterListResponse)
    (s : State) :
  showModal (applyLoad st cl s) = showModal s
  /\ generating (applyLoad st cl s) = generating s
  /\ generatingEnding (applyLoad st cl s) = generatingEnding s
  /\ loading (applyLoad st cl s) = loading s.
Proof.
  unfold applyLoad.
  destruct (find is_ending (chapters_of cl));
    destruct (filter is_regular (chapters_of cl)); cbn; auto.
Qed.

(** A call that settles moves the reader to the next phase. *)
Lemma phase_settle (storyId : string) (ss : session) (n : nat)
    (answer : forall c : call, reply c) :
  phase storyId ss -> phase storyId (step storyId ss (Settle n answer)).
Proof.
  intros H. cbn [step].
  destruct (nth_error (awaiting ss) n) as [p|] eqn:Hn; [|exact H].
  destruct H as [Ha Hs Hm|Ha Hm|em Ha Hg' Hm He|Ha Hg' Hm He|Ha Hg' Hm Ho
                |Ha Hg' Hl' Hm];
    rewrite Ha in Hn |- *;
    cbn [resume_of loadStory handleContinue handleGenerateEnding andThen]
      in Hn |- *;
    try (destruct n; discriminate);
    apply nth_error_single in Hn as [-> ->];
    cbn [drop_nth p_call p_resume].
  - destruct (answer (CallLoad storyId)) as [[st cl]|err];
      cbn [spawn view awaiting]; apply Idle; cbn; try reflexivity.
    + destruct (applyLoad_frame st cl (view ss)) as (E & _).
      rewrite E, Hm. discriminate.
    + rewrite Hm. discriminate.
  - destruct (answer (CallRunDay storyId _)) as [r|err];
      cbn [spawn view awaiting andThen loadStory first].
    + apply AdvancingReload; cbn; auto.
    + apply Idle; cbn; [reflexivity|]. rewrite Hm. discriminate.
  - destruct (answer (CallLoad storyId)) as [[st cl]|err];
      cbn [spawn view awaiting first]; apply Idle; cbn; try reflexivity.
    + destruct (applyLoad_frame st cl (view ss)) as (E & _).
      rewrite E, Hm. discriminate.
    + rewrite Hm. discriminate.
  - destruct (answer (CallGenerateEnding storyId)) as [r|err];
      cbn [spawn view awaiting andThen loadStory first].
    + apply EndingReload; cbn; auto.
    + apply Idle; cbn; [reflexivity|]. rewrite Hm. discriminate.
  - destruct (answer (CallLoad storyId)) as [[st cl]|err];
      cbn [spawn view awaiting first]; apply Idle; cbn; try reflexivity.
    + destruct (applyLoad_frame st cl (view ss)) as (E & _).
      rewrite E, Hm. discriminate.
    + rewrite Hm. discriminate.
Qed.

(** The progress messages rotate without touching anything else. *)
Lemma phase_tick (storyId : string) (ss : session) :
  phase storyId ss -> phase storyId (step storyId ss Tick).
Proof.
  intros H. cbn [step].
  destruct (generating (view ss)); [|exact H].
  apply (phase_frame storyId ss
           (setLoadingMessage (nextMessage (loadingMessage (view ss)))));
    cbn; auto.
Qed.

Lemma phase_at_most_one (storyId : string) (ss : session) :
  phase storyId ss -> (mutations_in_flight ss <= 1)%nat.
Proof.
  unfold mutations_in_flight.
  intros [Ha Hs Hm|Ha Hm|em Ha Hg' Hm He|Ha Hg' Hm He|Ha Hg' Hm Ho
         |Ha Hg' Hl' Hm]; rewrite Ha; cbn; lia.
Qed.

Lemma phase_steps (storyId : string) (es : list event) (ss : session) :
  no_start_writing es ->
  phase storyId ss ->
  phase storyId (steps storyId es ss).
Proof.
  unfold steps, no_start_writing. revert ss.
  induction es as [|e es IH]; intros ss Hes Hss; [exact Hss|].
  cbn [fold_left]. apply IH.
  - intros Hin. apply Hes. right. exact Hin.
  - destruct e as [c|n answer|].
    + apply phase_click; [|exact Hss].
      intros ->. apply Hes. left. reflexivity.
    + apply phase_settle, Hss.
    + apply phase_tick, Hss.
Qed.

(** In a reader opened on any story, whatever the server answers and
    whatever the user does short of "Start Writing", at most one mutating
    call is in flight: the [disabled] attributes of the header buttons and
    their exclusive conditions keep a second one from starting. *)
Theorem at_most_one_mutation (storyId : string) (es : list event) :
  no_start_writing es ->
  (mutations_in_flight (steps storyId es (mount storyId)) <= 1)%nat.
Proof.
  intros Hes. apply (phase_at_most_one storyId).
  apply phase_steps; [exact Hes | apply phase_mount].
Qed.

(** Away from the "No chapters yet." panel, advancing is offered exactly
    on the header's condition. *)
Lemma advance_offered_iff (s : State) (st : StoryStatus) :
  story s = Some st ->
  reader_panel s <> NoChapters ->
  advance_offered s = true
  <-> finished st = false /\ day_index st <= max_days st.
Proof.
  intros Hst Hp. unfold advance_offered. rewrite Hst.
  rewrite <- continue_shown_iff.
  destruct (reader_panel s); try contradiction;
    rewrite orb_false_r; reflexivity.
Qed.

Lemma ending_offered_iff (s : State) (st : StoryStatus) :
  story s = Some st ->
  ending_offered s = true
  <-> (finished st = true \/ max_days st < day_index st)
      /\ ending s = None.
Proof.
  intros Hst. unfold ending_offered. rewrite Hst. apply ending_shown_iff.
Qed.

(** C3, at the place where the code breaks it.  On a story without
    chapters the reader shows "No chapters yet." with a "Start Writing"
    button that opens the continue modal and, unlike the header's
    Continue button, is never [disabled].  With the first day being
    written ([generating] set, one [runDay] in flight) the button is
    still enabled, and submitting the modal again starts a second
    [runDay]: two mutating calls are in flight. *)
Theorem C3_second_day_started :
  map p_call (awaiting (steps sid (firstn 3 double_submit) (mount sid)))
  = [day_request sid "kind"]
  /\ generating (view (steps sid (firstn 3 double_submit) (mount sid)))
     = true
  /\ enabled (view (steps sid (firstn 3 double_submit) (mount sid)))
       ContinueButton = false
  /\ enabled (view (steps sid (firstn 3 double_submit) (mount sid)))
       StartWritingButton = true
  /\ map p_call (awaiting (steps sid double_submit (mount sid)))
     = [day_request sid "kind"; day_request sid "wrathful"]
  /\ mutations_in_flight (steps sid double_submit (mount sid)) = 2%nat.
Proof. repeat (split; [reflexivity|]). reflexivity. Qed.

(** C5, at the place where the code breaks it.  On a story past its last
    day, or finished, that has no chapter to show, the header offers no
    Continue button, yet "Start Writing" is offered, and using it
    submits a day. *)
Theorem C5_start_writing_offered :
  advance_offered (view (steps sid (firstn 1 (start_writing overrun_story))
                           (mount sid)))
  = true
  /\ advance_offered
       (view (steps sid (firstn 1 (start_writing finished_story))
                (mount sid)))
     = true
  /\ continue_shown overrun_story = false
  /\ enabled (view (steps sid (firstn 1 (start_writing overrun_story))
                      (mount sid)))
       ContinueButton = false
  /\ enabled (view (steps sid (firstn 1 (start_writing overrun_story))
                      (mount sid)))
       GenerateEndingButton = true
  /\ enabled (view (steps sid (firstn 1 (start_writing overrun_story))
                      (mount sid)))
       StartWritingButton = true
  /\ map p_call
       (awaiting (steps sid (start_writing overrun_story) (mount sid)))
     = [day_request sid "kind"]
  /\ enabled (view (steps sid (firstn 1 (start_writing finished_story))
                      (mount sid)))
       StartWritingButton = true
  /\ map p_call
       (awaiting (steps sid (start_writing finished_story) (mount sid)))
     = [day_request sid "kind"].
Proof. repeat (split; [reflexivity|]). reflexivity. Qed.

End ReaderFacts.

(** * More on the repository client *)

Module ApiMore.
Import Api.

Ltac unfold_operations :=
  unfold createStory, listStories, getStory, runDay, listChapters,
    getEmotions, generateEnding, listDemoStories, createStoryFromDemo,
    deleteStory, request, throw_detail, response_json.

(** A response that is not 2xx is never taken for a success: whatever its
    body (a JSON object, [null], or no JSON at all), every operation,
    the health check included, rejects. *)
Theorem non_2xx_always_rejects (r : response) :
  ok r = false ->
  (forall op : operation, failure op (Response r) <> None)
  /\ rejection (healthCheck (Response r)) <> None.
Proof.
  intros Hok. split.
  - intros op.
    destruct op; cbn; unfold_operations;
      rewrite ?Hok, ?(ApiFacts.not_ok_not_204 r Hok); cbn;
      destruct (payload r) as [why|[|d]]; cbn; discriminate.
  - cbn. rewrite Hok. cbn. discriminate.
Qed.

Lemma non_2xx_always_rejects_witness :
  (forall op : operation,
      failure op
        (Response {| status := 502; payload := NotJson "Unexpected token <" |})
      <> None)
  /\ rejection
       (healthCheck
          (Response
             {| status := 502; payload := NotJson "Unexpected token <" |}))
     <> None.
Proof.
  apply (non_2xx_always_rejects
           {| status := 502; payload := NotJson "Unexpected token <" |}).
  reflexivity.
Defined.

(** On a 2xx response [deleteStory] resolves without reading the body,
    while every operation that returns a payload resolves exactly when the
    body parses as JSON: a 204 without a body is a successful delete and a
    failed fetch of anything else. *)
Theorem success_reads_body_except_delete (r : response) :
  ok r = true ->
  deleteStory (Response r) = Resolved tt
  /\ (forall op : operation,
        op <> DeleteStory ->
        (failure op (Response r) = None <-> exists doc, payload r = Json doc)).
Proof.
  intros Hok. split.
  - unfold deleteStory. rewrite Hok. reflexivity.
  - intros op Hop.
    destruct op; try contradiction; cbn; unfold_operations;
      rewrite Hok; cbn;
      (destruct (payload r) as [why|doc]; cbn; split;
       [ discriminate
       | intros (doc' & Hd); discriminate
       | intros _; eexists; reflexivity
       | reflexivity ]).
Qed.

Lemma success_reads_body_except_delete_witness :
  deleteStory (Response {| status := 204; payload := NotJson "" |})
  = Resolved tt
  /\ (forall op : operation,
        op <> DeleteStory ->
        (failure op (Response {| status := 204; payload := NotJson "" |})
         = None
         <-> exists doc, NotJson "" = Json doc)).
Proof.
  apply (success_reads_body_except_delete
           {| status := 204; payload := NotJson "" |}).
  reflexivity.
Defined.

(** Whatever an operation throws is an [Error]: the message a component
    shows for a failed call is the one the client gave it, never the
    fallback of the component's own [catch]. *)
Theorem rejections_carry_their_message (op : operation) (f : fetched)
    (e : thrown) :
  failure op f = Some e ->
  exists (cls : error_class) (m : string),
    e = Thrown cls m /\ forall fallback, message_or fallback e = m.
Proof.
  destruct op; cbn; unfold_operations;
    (destruct f as [why|r];
     [ intros [= <-]; eauto
     | destruct (ok r); cbn;
       try destruct (status r =? 204); cbn;
       try (destruct (payload r) as [why|[|d]]; cbn);
       try discriminate; intros [= <-]; eauto ]).
Qed.

Lemma rejections_carry_their_message_witness :
  exists (cls : error_class) (m : string),
    Thrown TypeError "Failed to fetch" = Thrown cls m
    /\ forall fallback,
         message_or fallback (Thrown TypeError "Failed to fetch") = m.
Proof.
  apply (rejections_carry_their_message GetStory
           (NetworkFailure "Failed to fetch")).
  reflexivity.
Defined.

(** The message of a failed operation is never empty when the error body
    is a JSON object whose [detail] is absent, [null] or a string: there
    is always something for the error banner to show. *)
Theorem failure_message_not_empty (op : operation) (r : response)
    (d : js_value) :
  ok r = false ->
  payload r = Json (JsonValue d) ->
  (forall t img, d <> VOther t img) ->
  exists m,
    failure op (Response r) = Some (Thrown PlainError m)
    /\ truthy_string m = true.
Proof.
  intros Hok Hbody Hd.
  rewrite (ApiFacts.failure_not_ok op r d Hok Hbody).
  eexists. split; [reflexivity|].
  unfold or_else.
  destruct d as [| |s|t img]; cbn.
  - destruct op; reflexivity.
  - destruct op; reflexivity.
  - destruct (truthy_string s) eqn:Hs; cbn; [exact Hs|].
    destruct op; reflexivity.
  - exfalso. exact (Hd t img eq_refl).
Qed.

Lemma failure_message_not_empty_witness :
  exists m,
    failure RunDay (Response (error_response 409 VNull))
    = Some (Thrown PlainError m)
    /\ truthy_string m = true.
Proof.
  apply (failure_message_not_empty RunDay (error_response 409 VNull) VNull).
  - reflexivity.
  - reflexivity.
  - discriminate.
Defined.

End ApiMore.

(** * More on the story reader *)

Module ReaderMore.
Import Reader Spec Samples Display.

(** ** The header *)

(** While no ending is held the header shows exactly one of its two
    buttons, Continue or Generate Ending, whatever the story; once an
    ending is held, Generate Ending is gone for good. *)
Theorem header_shows_one_button (st : StoryStatus) (s : State) :
  (ending s = None -> ending_shown st s = negb (continue_shown st))
  /\ (ending s <> None -> ending_shown st s = false).
Proof.
  unfold ending_shown, continue_shown, has_ending. split.
  - intros ->. destruct (finished st); cbn; [reflexivity|].
    rewrite andb_true_r, Z.leb_antisym, negb_involutive. reflexivity.
  - destruct (ending s); [|contradiction]. intros _. cbn.
    apply andb_false_r.
Qed.

Lemma header_shows_one_button_witness :
  ending_shown overrun_story (at_rest overrun_story [prologue] None None)
  = negb (continue_shown overrun_story)
  /\ ending_shown finished_story
       (at_rest finished_story [prologue] (Some (an_ending "Dawn")) None)
     = false.
Proof.
  split.
  - apply (header_shows_one_button overrun_story
             (at_rest overrun_story [prologue] None None)).
    reflexivity.
  - apply (header_shows_one_button finished_story
             (at_rest finished_story [prologue] (Some (an_ending "Dawn"))
                None)).
    discriminate.
Defined.

(** ** What a load leaves on display *)

Lemma applyLoad_fields (st : StoryStatus) (cl : ChapterListResponse)
    (s : State) :
  chapters (applyLoad st cl s) = filter is_regular (chapters_of cl)
  /\ selectedChapter (applyLoad st cl s)
     = match filter is_regular (chapters_of cl) with
       | c :: _ => Some (day c)
       | [] => selectedChapter s
       end
  /\ ending (applyLoad st cl s)
     = match find is_ending (chapters_of cl) with
       | Some c => Some (project_ending c)
       | None => ending s
       end
  /\ story (applyLoad st cl s) = Some st.
Proof.
  unfold applyLoad.
  destruct (find is_ending (chapters_of cl));
    destruct (filter is_regular (chapters_of cl)); cbn; auto.
Qed.

(** After every successful load that keeps at least one chapter, the
    current chapter is the first of the list, whatever the days are and
    whatever was selected; the reader displays it, unless its day is -1
    and an ending is held, in which case the ending is displayed. *)
Theorem load_displays_first_chapter (storyId : string)
    (answers : nat -> forall c : call, reply c) (n : nat) (s : State)
    (st : StoryStatus) (cl : ChapterListResponse) (c : Chapter)
    (rest : list Chapter) :
  answers n (CallLoad storyId) = Resolved (st, cl) ->
  filter is_regular (chapters_of cl) = c :: rest ->
  currentChapter (fst (run (loadStory storyId) answers n s)) = Some c
  /\ (day c <> -1 ->
      reader_panel (fst (run (loadStory storyId) answers n s))
      = ChapterPanel c)
  /\ (ending (fst (run (loadStory storyId) answers n s)) = None ->
      reader_panel (fst (run (loadStory storyId) answers n s))
      = ChapterPanel c).
Proof.
  intros Hl Hf.
  rewrite (ReaderFacts.run_loadStory_resolved storyId answers n s st cl Hl).
  cbn [fst].
  destruct (applyLoad_fields st cl (setError "" (setLoading true s)))
    as (Hc & Hsel & He & _).
  rewrite Hf in Hc, Hsel.
  assert (Hcur : currentChapter
                   (setLoading false
                      (applyLoad st cl (setError "" (setLoading true s))))
                 = Some c).
  { unfold currentChapter. cbn. rewrite Hsel, Hc. cbn.
    destruct (day c =? 0) eqn:E; cbn; [reflexivity|].
    rewrite Z.eqb_refl. reflexivity. }
  split; [exact Hcur|]. split.
  - intros Hd. unfold reader_panel, ending_selected. cbn.
    rewrite Hsel. destruct (Z.eqb_spec (day c) (-1)); [contradiction|].
    rewrite Hcur. reflexivity.
  - cbn. intros Hnone. unfold reader_panel. cbn. rewrite Hnone.
    rewrite Hcur. destruct (ending_selected _); reflexivity.
Qed.

Lemma load_displays_first_chapter_witness :
  currentChapter
    (fst (run (loadStory sid)
            (fun _ => online (a_story 3 7 false []) [day2; day1; prologue])
            0 (at_rest (a_story 2 7 false []) [] None (Some 1))))
  = Some day2
  /\ (day day2 <> -1 ->
      reader_panel
        (fst (run (loadStory sid)
                (fun _ => online (a_story 3 7 false [])
                            [day2; day1; prologue])
                0 (at_rest (a_story 2 7 false []) [] None (Some 1))))
      = ChapterPanel day2)
  /\ (ending
        (fst (run (loadStory sid)
                (fun _ => online (a_story 3 7 false [])
                            [day2; day1; prologue])
                0 (at_rest (a_story 2 7 false []) [] None (Some 1))))
      = None ->
      reader_panel
        (fst (run (loadStory sid)
                (fun _ => online (a_story 3 7 false [])
                            [day2; day1; prologue])
                0 (at_rest (a_story 2 7 false []) [] None (Some 1))))
      = ChapterPanel day2).
Proof.
  apply (load_displays_first_chapter sid
           (fun _ => online (a_story 3 7 false []) [day2; day1; prologue])
           0%nat (at_rest (a_story 2 7 false []) [] None (Some 1))
           (a_story 3 7 false [])
           {| chapters_of := [day2; day1; prologue]; total := 3 |}
           day2 [day1; prologue]); reflexivity.
Defined.

(** After an ending was generated the reader displays an ending, whether
    the reload that follows succeeds or fails: the projection of the
    persisted ending record when the reload found one, and otherwise the
    ending the call returned; nothing is left in flight by the handler. *)
Theorem generated_ending_is_displayed (storyId : string)
    (answers : nat -> forall c : call, reply c) (result : EndingResponse)
    (s : State) :
  answers 0%nat (CallGenerateEnding storyId) = Resolved result ->
  exists e : EndingResponse,
    reader_panel (fst (run (handleGenerateEnding storyId) answers 0 s))
    = EndingPanel e
    /\ ending (fst (run (handleGenerateEnding storyId) answers 0 s))
       = Some e
    /\ e = match answers 1%nat (CallLoad storyId) with
           | Resolved (_, cl) =>
               match find is_ending (chapters_of cl) with
               | Some c => project_ending c
               | None => result
               end
           | Rejected _ => result
           end
    /\ generatingEnding
         (fst (run (handleGenerateEnding storyId) answers 0 s)) = false
    /\ loading (fst (run (handleGenerateEnding storyId) answers 0 s))
       = false
    /\ snd (run (handleGenerateEnding storyId) answers 0 s)
       = [CallGenerateEnding storyId; CallLoad storyId].
Proof.
  intros H. cbn. rewrite H. cbn.
  destruct (answers 1%nat (CallLoad storyId)) as [[st cl]|err]; cbn.
  - unfold applyLoad.
    destruct (find is_ending (chapters_of cl)) as [c|];
      destruct (filter is_regular (chapters_of cl));
      eexists; repeat split.
  - eexists; repeat split.
Qed.

Lemma generated_ending_is_displayed_witness :
  exists e : EndingResponse,
    reader_panel
      (fst (run (handleGenerateEnding sid)
              (fun _ => online finished_story [prologue]) 0
              (at_rest finished_story [prologue] None (Some 0))))
    = EndingPanel e
    /\ ending
         (fst (run (handleGenerateEnding sid)
                 (fun _ => online finished_story [prologue]) 0
                 (at_rest finished_story [prologue] None (Some 0))))
       = Some e
    /\ e = an_ending "Dawn"
    /\ generatingEnding
         (fst (run (handleGenerateEnding sid)
                 (fun _ => online finished_story [prologue]) 0
                 (at_rest finished_story [prologue] None (Some 0))))
       = false
    /\ loading
         (fst (run (handleGenerateEnding sid)
                 (fun _ => online finished_story [prologue]) 0
                 (at_rest finished_story [prologue] None (Some 0))))
       = false
    /\ snd (run (handleGenerateEnding sid)
              (fun _ => online finished_story [prologue]) 0
              (at_rest finished_story [prologue] None (Some 0)))
       = [CallGenerateEnding sid; CallLoad sid].
Proof.
  apply (generated_ending_is_displayed sid
           (fun _ => online finished_story [prologue]) (an_ending "Dawn")
           (at_rest finished_story [prologue] None (Some 0))).
  reflexivity.
Defined.

(** ** The projection of the chapter list *)

(** The ending projected from a persisted record is always presentable:
    its type and its title are never empty ("unknown" and "The End" stand
    in for what is missing or empty), its thread lists default to empty
    lists when the nested data is absent, and text and word count are the
    record's. *)
Theorem project_ending_defaults (c : Chapter) :
  ending_type (project_ending c) <> ""
  /\ e_title (project_ending c) <> ""
  /\ text (project_ending c) = chapter_text c
  /\ word_count (project_ending c) = chapter_word_count c
  /\ (c_ending c = None ->
      ending_type (project_ending c) = "unknown"
      /\ resolved_threads (project_ending c) = []
      /\ unresolved_threads (project_ending c) = [])
  /\ (chapter_title c = None \/ chapter_title c = Some "" ->
      e_title (project_ending c) = "The End").
Proof.
  assert (Hor : forall o d, d <> "" -> string_or o d <> "").
  { intros [v|] d Hd; cbn; [|exact Hd].
    unfold truthy_string. destruct (String.eqb_spec v ""); cbn; auto. }
  unfold project_ending. cbn.
  split; [apply Hor; discriminate|].
  split; [apply Hor; discriminate|].
  split; [reflexivity|]. split; [reflexivity|]. split.
  - intros ->. auto.
  - intros [-> | ->]; reflexivity.
Qed.

Lemma project_ending_defaults_witness :
  ending_type (project_ending (ending_record None)) = "unknown"
  /\ resolved_threads (project_ending (ending_record None)) = []
  /\ unresolved_threads (project_ending (ending_record None)) = []
  /\ e_title (project_ending (ending_record (Some ""))) = "The End".
Proof.
  destruct (project_ending_defaults (ending_record None))
    as (_ & _ & _ & _ & H & _).
  destruct (H eq_refl) as (H1 & H2 & H3).
  destruct (project_ending_defaults (ending_record (Some "")))
    as (_ & _ & _ & _ & _ & H').
  repeat split; auto.
Defined.

Lemma filter_app_regular (l l' : list Chapter) :
  filter is_regular (l ++ l')
  = (filter is_regular l ++ filter is_regular l')%list.
Proof. apply filter_app. Qed.

Lemma find_ending_app (pre post : list Chapter) (e : Chapter) :
  forallb is_regular pre = true ->
  is_ending e = true ->
  find is_ending (pre ++ e :: post) = Some e.
Proof.
  intros Hpre He. induction pre as [|x pre IH]; cbn.
  - rewrite He. reflexivity.
  - cbn in Hpre. apply andb_prop in Hpre as [Hx Hpre].
    unfold is_regular in Hx. apply negb_true_iff in Hx. rewrite Hx.
    apply IH, Hpre.
Qed.

Lemma filter_regular_idem (l : list Chapter) :
  filter is_regular (filter is_regular l) = filter is_regular l.
Proof.
  induction l as [|x l IH]; cbn; [reflexivity|].
  destruct (is_regular x) eqn:E; cbn; [rewrite E, IH|]; auto.
Qed.

(** Only the first ending record of a chapter list counts: the ending
    records that come after it are neither kept as chapters nor used for
    the ending, so a load leaves the same state with or without them. *)
Theorem later_ending_records_ignored (st : StoryStatus)
    (pre post : list Chapter) (e : Chapter) (n n' : Z) (s : State) :
  forallb is_regular pre = true ->
  is_ending e = true ->
  applyLoad st {| chapters_of := pre ++ e :: post; total := n |} s
  = applyLoad st
      {| chapters_of := pre ++ e :: filter is_regular post; total := n' |} s.
Proof.
  intros Hpre He. unfold applyLoad. cbn [chapters_of].
  rewrite !(find_ending_app _ _ e Hpre He).
  assert (Hr : is_regular e = false)
    by (unfold is_regular; rewrite He; reflexivity).
  rewrite !filter_app_regular. cbn [filter]. rewrite !Hr.
  rewrite filter_regular_idem. reflexivity.
Qed.

Lemma later_ending_records_ignored_witness :
  applyLoad finished_story
    {| chapters_of :=
         [prologue; ending_record (Some "Dusk"); day1;
          ending_record (Some "Night")];
       total := 4 |}
    initial
  = applyLoad finished_story
      {| chapters_of := [prologue; ending_record (Some "Dusk"); day1];
         total := 3 |}
      initial.
Proof.
  apply (later_ending_records_ignored finished_story [prologue]
           [day1; ending_record (Some "Night")]
           (ending_record (Some "Dusk")) 4 3 initial); reflexivity.
Defined.

(** ** The sidebar *)

(** Once an ending is held no chapter of the sidebar is marked as
    selected, not even the chapter the reader displays: with a chapter of
    day [d] selected ([d] neither 0 nor -1) the reader shows that chapter
    while neither it nor the ending's item carries the mark. *)
Theorem held_ending_unmarks_chapters (s : State) (e : EndingResponse)
    (d : Z) (c : Chapter) :
  ending s = Some e ->
  selectedChapter s = Some d ->
  d <> 0 -> d <> -1 ->
  find (fun x => day x =? d) (chapters s) = Some c ->
  reader_panel s = ChapterPanel c
  /\ (forall x, chapterItemSelected s x = false)
  /\ endingItemSelected s = false.
Proof.
  intros He Hsel Hd0 Hd1 Hfind.
  assert (Hes : ending_selected s = false).
  { unfold ending_selected. rewrite Hsel.
    destruct (Z.eqb_spec d (-1)); [contradiction|reflexivity]. }
  split; [|split].
  - unfold reader_panel. rewrite Hes.
    rewrite (ReaderFacts.currentChapter_lookup s d Hsel Hd0), Hfind.
    reflexivity.
  - intros x. unfold chapterItemSelected, has_ending.
    rewrite Hsel, He. apply andb_false_r.
  - exact Hes.
Qed.

Lemma held_ending_unmarks_chapters_witness :
  reader_panel
    (at_rest finished_story [prologue; day1; day2]
       (Some (an_ending "Dawn")) (Some 2))
  = ChapterPanel day2
  /\ (forall x,
        chapterItemSelected
          (at_rest finished_story [prologue; day1; day2]
             (Some (an_ending "Dawn")) (Some 2)) x
        = false)
  /\ endingItemSelected
       (at_rest finished_story [prologue; day1; day2]
          (Some (an_ending "Dawn")) (Some 2))
     = false.
Proof.
  apply (held_ending_unmarks_chapters
           (at_rest finished_story [prologue; day1; day2]
              (Some (an_ending "Dawn")) (Some 2))
           (an_ending "Dawn") 2 day2);
    try reflexivity; discriminate.
Defined.



(** ** Bars, labels and progress messages *)

(** The bar of an ending is between 5 and 100 percent wide for every
    score, never shrinks when the score grows, and is five times the
    score plus ten between -9 and 10: the scale saturates outside. *)
Theorem bar_width_bounds (score score' : Z) :
  5 <= barWidth score <= 100
  /\ (score <= score' -> barWidth score <= barWidth score')
  /\ (-9 <= score <= 10 -> barWidth score = (score + 10) * 5)
  /\ (score <= -9 -> barWidth score = 5)
  /\ (10 <= score -> barWidth score = 100).
Proof. unfold barWidth. lia. Qed.

Lemma bar_width_bounds_witness :
  barWidth (-40) <= barWidth 3
  /\ barWidth 3 = 65
  /\ barWidth (-40) = 5
  /\ barWidth 40 = 100.
Proof.
  destruct (bar_width_bounds (-40) 3) as (_ & H1 & _ & H2 & _).
  destruct (bar_width_bounds 3 3) as (_ & _ & H3 & _).
  destruct (bar_width_bounds 40 40) as (_ & _ & _ & _ & H4).
  split; [apply H1; lia|]. split; [apply H3; lia|].
  split; [apply H2; lia | apply H4; lia].
Defined.




Example replace_in_two_word_label :
  replaceUnderscore "self_discovery" = "self discovery"
  /\ replaceUnderscore "bitter_sweet_end" = "bitter sweet_end".
Proof. split; reflexivity. Qed.

Lemma indexOf_bounds (l : list string) (x : string) :
  -1 <= indexOf l x < Z.of_nat (List.length l).
Proof.
  induction l as [|y l IH]; cbn [indexOf List.length]; [lia|].
  destruct (String.eqb y x); [lia|].
  destruct (Z.ltb_spec (indexOf l x) 0); lia.
Qed.

(** The progress message that follows any message, listed or not, is one
    of [LOADING_MESSAGES]: the rotation never runs off the list, and from
    the message of the ending overlay, which is not listed, it goes to
    the first. *)
Theorem next_message_is_listed (prev : string) :
  In (nextMessage prev) LOADING_MESSAGES
  /\ (~ In prev LOADING_MESSAGES ->
      nextMessage prev = hd "" LOADING_MESSAGES).
Proof.
  unfold nextMessage. cbv zeta.
  pose proof (indexOf_bounds LOADING_MESSAGES prev) as Hb.
  set (i := indexOf LOADING_MESSAGES prev) in *.
  change (Z.of_nat (List.length LOADING_MESSAGES)) with 8 in *.
  split.
  - apply nth_In. change (List.length LOADING_MESSAGES) with 8%nat.
    destruct (Z.eq_dec i 7) as [->|Hi]; [cbn; lia|].
    rewrite Z.rem_small by lia. lia.
  - intros Hnot.
    assert (Hi : i = -1).
    { subst i. clear Hb. revert Hnot.
      generalize LOADING_MESSAGES as l.
      induction l as [|y l IH]; cbn; intros Hnot; [reflexivity|].
      destruct (String.eqb_spec y prev) as [->|Hne];
        [exfalso; apply Hnot; left; reflexivity|].
      rewrite IH by (intros Hin; apply Hnot; right; exact Hin).
      reflexivity. }
    rewrite Hi. reflexivity.
Qed.

Lemma next_message_is_listed_witness :
  nextMessage "Crafting the perfect ending..." = hd "" LOADING_MESSAGES.
Proof.
  apply (next_message_is_listed "Crafting the perfect ending...").
  cbn. intros H. repeat (destruct H as [H|H]; [discriminate H|]).
  exact H.
Defined.

End ReaderMore.

(** * What holds in every reader *)

Module TrackFacts.
Import Reader Spec Samples Track.

Lemma resume_single (storyId : string) (k : kind) :
  exists p, resume_of (task_of storyId k) = [p].
Proof. destruct k; cbn; eexists; reflexivity. Qed.

Lemma nth_error_flat_single {A B} (g : A -> list B) (ks : list A) (n : nat)
    (p : B) :
  (forall k, exists q, g k = [q]) ->
  nth_error (flat_map g ks) n = Some p ->
  exists k, nth_error ks n = Some k /\ g k = [p].
Proof.
  intros Hg. revert n. induction ks as [|k ks IH]; intros n Hn; cbn in Hn.
  - destruct n; discriminate.
  - destruct (Hg k) as (q & Hq). rewrite Hq in Hn. cbn in Hn.
    destruct n as [|n]; cbn in Hn.
    + injection Hn as ->. exists k. auto.
    + destruct (IH n Hn) as (k' & H1 & H2). exists k'. auto.
Qed.

Lemma drop_nth_flat_single {A B} (g : A -> list B) (ks : list A) (n : nat) :
  (forall k, exists q, g k = [q]) ->
  drop_nth n (flat_map g ks) = flat_map g (drop_nth n ks).
Proof.
  intros Hg. revert n. induction ks as [|k ks IH]; intros n; cbn.
  - destruct n; reflexivity.
  - destruct (Hg k) as (q & Hq). rewrite Hq. cbn.
    destruct n as [|n]; cbn; [reflexivity|].
    rewrite Hq, IH. reflexivity.
Qed.

Lemma existsb_drop_nth {A} (P : A -> bool) (ks : list A) (n : nat) (k : A) :
  nth_error ks n = Some k ->
  P k = false ->
  existsb P (drop_nth n ks) = existsb P ks.
Proof.
  revert n. induction ks as [|x ks IH]; intros n Hn Hk; cbn.
  - destruct n; reflexivity.
  - destruct n as [|n]; cbn in *.
    + injection Hn as ->. rewrite Hk. reflexivity.
    + rewrite (IH n Hn Hk). reflexivity.
Qed.

Lemma existsb_snoc {A} (P : A -> bool) (ks : list A) (k : A) :
  existsb P (ks ++ [k]) = existsb P ks || P k.
Proof. rewrite existsb_app. cbn. rewrite orb_false_r. reflexivity. Qed.

Lemma keeps_refl (s : State) : keeps s s.
Proof. split; auto. Qed.

Lemma applyLoad_regular (st : StoryStatus) (cl : ChapterListResponse)
    (s : State) :
  forallb is_regular (chapters (applyLoad st cl s)) = true.
Proof.
  destruct (ReaderMore.applyLoad_fields st cl s) as (-> & _).
  apply ReaderFacts.regular_chapters_no_ending.
Qed.

Lemma applyLoad_keeps (st : StoryStatus) (cl : ChapterListResponse)
    (s : State) :
  keeps s (applyLoad st cl s).
Proof.
  destruct (ReaderMore.applyLoad_fields st cl s) as (_ & _ & He & Hs).
  split; intros H.
  - rewrite Hs. discriminate.
  - rewrite He.
    destruct (find is_ending (chapters_of cl)); [discriminate|exact H].
Qed.


Ltac same_flags :=
  repeat split; first [ assumption | cbn; assumption ].

(** A handler of kind [k] ends: what it leaves set was set before and is
    another handler's to clear. *)
Lemma tracked_finish (storyId : string) (ks : list kind) (n : nat)
    (k : kind) (ss : session) (s' : State) :
  tracked storyId ks ss ->
  nth_error ks n = Some k ->
  (loading s' = true -> loading (view ss) = true /\ loads k = false) ->
  (generating s' = true ->
   generating (view ss) = true /\ advances k = false) ->
  (generatingEnding s' = true ->
   generatingEnding (view ss) = true /\ ends k = false) ->
  forallb is_regular (chapters s') = true ->
  tracked storyId (drop_nth n ks)
    {| view := s';
       awaiting :=
         flat_map (fun k => resume_of (task_of storyId k)) (drop_nth n ks) |}.
Proof.
  intros (Ha & Hl & Hg & Hge & Hc) Hk Hl' Hg' Hge' Hc'.
  repeat split; cbn [view awaiting]; try assumption.
  - intros H. destruct (Hl' H) as [H1 H2].
    rewrite (existsb_drop_nth _ ks n k Hk H2). auto.
  - intros H. destruct (Hg' H) as [H1 H2].
    rewrite (existsb_drop_nth _ ks n k Hk H2). auto.
  - intros H. destruct (Hge' H) as [H1 H2].
    rewrite (existsb_drop_nth _ ks n k Hk H2). auto.
Qed.

(** A handler of kind [k] goes on to its next [await], of kind [k']. *)
Lemma tracked_await (storyId : string) (ks : list kind) (n : nat)
    (k k' : kind) (ss : session) (s' : State) :
  tracked storyId ks ss ->
  nth_error ks n = Some k ->
  (loading s' = true ->
   (loading (view ss) = true /\ loads k = false) \/ loads k' = true) ->
  (generating s' = true ->
   (generating (view ss) = true /\ advances k = false)
   \/ advances k' = true) ->
  (generatingEnding s' = true ->
   (generatingEnding (view ss) = true /\ ends k = false)
   \/ ends k' = true) ->
  forallb is_regular (chapters s') = true ->
  tracked storyId (drop_nth n ks ++ [k'])
    {| view := s';
       awaiting :=
         (flat_map (fun k => resume_of (task_of storyId k)) (drop_nth n ks)
          ++ resume_of (task_of storyId k'))%list |}.
Proof.
  intros (Ha & Hl & Hg & Hge & Hc) Hk Hl' Hg' Hge' Hc'.
  repeat split; cbn [view awaiting]; try assumption.
  - rewrite flat_map_app. cbn [flat_map]. rewrite app_nil_r. reflexivity.
  - intros H. rewrite existsb_snoc.
    destruct (Hl' H) as [[H1 H2]| ->]; [|apply orb_true_r].
    rewrite (existsb_drop_nth _ ks n k Hk H2), (Hl H1). reflexivity.
  - intros H. rewrite existsb_snoc.
    destruct (Hg' H) as [[H1 H2]| ->]; [|apply orb_true_r].
    rewrite (existsb_drop_nth _ ks n k Hk H2), (Hg H1). reflexivity.
  - intros H. rewrite existsb_snoc.
    destruct (Hge' H) as [[H1 H2]| ->]; [|apply orb_true_r].
    rewrite (existsb_drop_nth _ ks n k Hk H2), (Hge H1). reflexivity.
Qed.

(** Every event keeps the reader tracked and keeps what it shows. *)
Lemma tracked_step (storyId : string) (ks : list kind) (ss : session)
    (e : event) :
  tracked storyId ks ss ->
  exists ks',
    tracked storyId ks' (step storyId ss e)
    /\ keeps (view ss) (view (step storyId ss e)).
Proof.
  intros Ht. pose proof Ht as (Ha & Hl & Hg & Hge & Hc).
  destruct e as [c|n answer|]; cbn [step].
  - destruct (enabled (view ss) c) eqn:En;
      [|exists ks; split; [same_flags | apply keeps_refl]].
    destruct c as [| | | | |d| | |em];
      cbn [onClick spawn handleContinue handleGenerateEnding];
      try (exists ks; split; [same_flags | split; cbn; auto]; fail).
    + exists (ks ++ [KEnding])%list. split; [|split; cbn; auto].
      repeat split; cbn.
      * rewrite Ha, flat_map_app. reflexivity.
      * intros H. rewrite existsb_snoc, (Hl H). reflexivity.
      * intros H. rewrite existsb_snoc, (Hg H). reflexivity.
      * intros _. rewrite existsb_snoc. apply orb_true_r.
      * exact Hc.
    + exists (ks ++ [KDay em])%list. split; [|split; cbn; auto].
      repeat split; cbn.
      * rewrite Ha, flat_map_app. reflexivity.
      * intros H. rewrite existsb_snoc, (Hl H). reflexivity.
      * intros _. rewrite existsb_snoc. apply orb_true_r.
      * intros H. rewrite existsb_snoc, (Hge H). reflexivity.
      * exact Hc.
  - destruct (nth_error (awaiting ss) n) as [p|] eqn:Hn;
      [|exists ks; split; [same_flags | apply keeps_refl]].
    rewrite Ha in Hn.
    destruct (nth_error_flat_single _ ks n p (resume_single storyId) Hn)
      as (k & Hk & Hp).
    rewrite Ha, (drop_nth_flat_single _ ks n (resume_single storyId)).
    destruct k as [|em| | |]; cbn in Hp; injection Hp as <-;
      cbn [p_call p_resume].
    + (* the load of [loadStory] *)
      destruct (answer (CallLoad storyId)) as [[st cl]|err];
        cbn [spawn view awaiting]; exists (drop_nth n ks); split.
      * apply (tracked_finish storyId ks n KLoad ss _ Ht Hk);
          try (cbn; discriminate).
        -- cbn. destruct (ReaderFacts.applyLoad_frame st cl (view ss))
             as (_ & E & _). rewrite E. auto.
        -- cbn. destruct (ReaderFacts.applyLoad_frame st cl (view ss))
             as (_ & _ & E & _). rewrite E. auto.
        -- cbn. apply applyLoad_regular.
      * destruct (applyLoad_keeps st cl (view ss)) as [K1 K2].
        split; cbn; auto.
      * apply (tracked_finish storyId ks n KLoad ss _ Ht Hk);
          try (cbn; discriminate); cbn; auto.
      * split; cbn; auto.
    + (* the submission of [handleContinue] *)
      destruct (answer (CallRunDay storyId _)) as [r|err];
        cbn [spawn view awaiting andThen loadStory first].
      * exists (drop_nth n ks ++ [KDayReload])%list. split.
        -- apply (tracked_await storyId ks n (KDay em) KDayReload ss _ Ht Hk);
             cbn; auto.
        -- split; cbn; auto.
      * exists (drop_nth n ks). split.
        -- apply (tracked_finish storyId ks n (KDay em) ss _ Ht Hk);
             try (cbn; discriminate); cbn; auto.
        -- split; cbn; auto.
    + (* the reload of [handleContinue] *)
      destruct (answer (CallLoad storyId)) as [[st cl]|err];
        cbn [spawn view awaiting first]; exists (drop_nth n ks); split.
      * apply (tracked_finish storyId ks n KDayReload ss _ Ht Hk);
          try (cbn; discriminate).
        -- cbn. destruct (ReaderFacts.applyLoad_frame st cl (view ss))
             as (_ & _ & E & _). rewrite E. auto.
        -- cbn. apply applyLoad_regular.
      * destruct (applyLoad_keeps st cl (view ss)) as [K1 K2].
        split; cbn; auto.
      * apply (tracked_finish storyId ks n KDayReload ss _ Ht Hk);
          try (cbn; discriminate); cbn; auto.
      * split; cbn; auto.
    + (* the request of [handleGenerateEnding] *)
      destruct (answer (CallGenerateEnding storyId)) as [r|err];
        cbn [spawn view awaiting andThen loadStory first].
      * exists (drop_nth n ks ++ [KEndingReload])%list. split.
        -- apply (tracked_await storyId ks n KEnding KEndingReload ss _
                     Ht Hk);
             cbn; auto.
        -- split; cbn; [auto | discriminate].
      * exists (drop_nth n ks). split.
        -- apply (tracked_finish storyId ks n KEnding ss _ Ht Hk);
             try (cbn; discriminate); cbn; auto.
        -- split; cbn; auto.
    + (* the reload of [handleGenerateEnding] *)
      destruct (answer (CallLoad storyId)) as [[st cl]|err];
        cbn [spawn view awaiting first]; exists (drop_nth n ks); split.
      * apply (tracked_finish storyId ks n KEndingReload ss _ Ht Hk);
          try (cbn; discriminate).
        -- cbn. destruct (ReaderFacts.applyLoad_frame st cl (view ss))
             as (_ & E & _). rewrite E. auto.
        -- cbn. apply applyLoad_regular.
      * destruct (applyLoad_keeps st cl (view ss)) as [K1 K2].
        split; cbn; auto.
      * apply (tracked_finish storyId ks n KEndingReload ss _ Ht Hk);
          try (cbn; discriminate); cbn; auto.
      * split; cbn; auto.
  - assert (T : tracked storyId ks
                  {| view := setLoadingMessage
                               (nextMessage (loadingMessage (view ss)))
                               (view ss);
                     awaiting := awaiting ss |}) by same_flags.
    exists ks. destruct (generating (view ss)).
    + split; [exact T | split; cbn; auto].
    + split; [exact Ht | apply keeps_refl].
Qed.

Lemma tracked_mount (storyId : string) :
  tracked storyId [KLoad] (mount storyId).
Proof. repeat split; cbn; intros; try reflexivity; discriminate. Qed.

Lemma keeps_trans (s1 s2 s3 : State) :
  keeps s1 s2 -> keeps s2 s3 -> keeps s1 s3.
Proof. intros [A B] [C D]. split; auto. Qed.

Lemma tracked_steps (storyId : string) (es : list event) (ks : list kind)
    (ss : session) :
  tracked storyId ks ss ->
  exists ks',
    tracked storyId ks' (steps storyId es ss)
    /\ keeps (view ss) (view (steps storyId es ss)).
Proof.
  unfold steps. revert ks ss.
  induction es as [|e es IH]; intros ks ss Ht; cbn [fold_left].
  - exists ks. split; [exact Ht | apply keeps_refl].
  - destruct (tracked_step storyId ks ss e Ht) as (ks1 & Ht1 & K1).
    destruct (IH ks1 _ Ht1) as (ks2 & Ht2 & K2).
    exists ks2. split; [exact Ht2 | exact (keeps_trans _ _ _ K1 K2)].
Qed.

Lemma steps_app (storyId : string) (es1 es2 : list event) (ss : session) :
  steps storyId (es1 ++ es2) ss
  = steps storyId es2 (steps storyId es1 ss).
Proof. unfold steps. apply fold_left_app. Qed.

(** In a reader opened on any story, whatever the server answers and
    whatever the user does, the chapter list never holds a record of type
    ending: the sidebar and the reader only ever show regular chapters. *)
Theorem chapters_never_hold_an_ending (storyId : string)
    (es : list event) :
  forallb is_regular (chapters (view (steps storyId es (mount storyId))))
  = true.
Proof.
  destruct (tracked_steps storyId es _ _ (tracked_mount storyId))
    as (ks & (_ & _ & _ & _ & H) & _).
  exact H.
Qed.

(** What the reader has once shown stays: after any further events,
    failed loads and failed mutations included, a loaded story is still
    there and an ending held is still held (the reader never falls back
    to its loading or error screen, and never loses its ending). *)
Theorem shown_content_is_never_dropped (storyId : string)
    (es1 es2 : list event) :
  (story (view (steps storyId es1 (mount storyId))) <> None ->
   story (view (steps storyId (es1 ++ es2) (mount storyId))) <> None)
  /\ (ending (view (steps storyId es1 (mount storyId))) <> None ->
      ending (view (steps storyId (es1 ++ es2) (mount storyId))) <> None).
Proof.
  rewrite steps_app.
  destruct (tracked_steps storyId es1 _ _ (tracked_mount storyId))
    as (ks & Ht & _).
  destruct (tracked_steps storyId es2 _ _ Ht) as (ks' & _ & K).
  exact K.
Qed.

(** No progress flag is ever stuck: in a reader opened on any story,
    after any events, once no call is in flight none of [loading],
    [generating] and [generatingEnding] is set, so no overlay stays up
    and no button stays disabled for an operation that is over. *)
Theorem flags_clear_when_nothing_in_flight (storyId : string)
    (es : list event) :
  awaiting (steps storyId es (mount storyId)) = [] ->
  idle (view (steps storyId es (mount storyId))) = true.
Proof.
  destruct (tracked_steps storyId es _ _ (tracked_mount storyId))
    as (ks & (Ha & Hl & Hg & Hge & _) & _).
  intros Hnil. rewrite Hnil in Ha.
  assert (ks = []) as ->.
  { destruct ks as [|k ks]; [reflexivity|].
    cbn in Ha. destruct (resume_single storyId k) as (p & Hp).
    rewrite Hp in Ha. discriminate. }
  unfold idle.
  destruct (loading _); [discriminate (Hl eq_refl)|].
  destruct (generating _); [discriminate (Hg eq_refl)|].
  destruct (generatingEnding _); [discriminate (Hge eq_refl)|].
  reflexivity.
Qed.

Lemma shown_content_is_never_dropped_witness :
  story
    (view (steps sid
             ([Settle 0 (online fresh_story [prologue])]
              ++ [Click ContinueButton; Click (ModalSubmit "kind");
                  Settle 0 (offline fresh_story [prologue])])
             (mount sid)))
  <> None.
Proof.
  apply (shown_content_is_never_dropped sid
           [Settle 0 (online fresh_story [prologue])]
           [Click ContinueButton; Click (ModalSubmit "kind");
            Settle 0 (offline fresh_story [prologue])]).
  discriminate.
Defined.

Lemma flags_clear_when_nothing_in_flight_witness :
  idle
    (view (steps sid
             [Settle 0 (online fresh_story [prologue]);
              Click ContinueButton; Click (ModalSubmit "kind");
              Settle 0 (offline fresh_story [prologue])]
             (mount sid)))
  = true.
Proof.
  apply (flags_clear_when_nothing_in_flight sid
           [Settle 0 (online fresh_story [prologue]);
            Click ContinueButton; Click (ModalSubmit "kind");
            Settle 0 (offline fresh_story [prologue])]).
  reflexivity.
Defined.

(** The header's guard at work: a second Continue and a Generate Ending
    pressed while a day is being written start nothing. *)
Lemma at_most_one_mutation_witness :
  (mutations_in_flight
     (steps sid
        [Settle 0 (online fresh_story [prologue]);
         Click ContinueButton; Click (ModalSubmit "kind");
         Click ContinueButton; Click (ModalSubmit "wrathful");
         Click GenerateEndingButton]
        (mount sid))
   <= 1)%nat.
Proof.
  apply (ReaderFacts.at_most_one_mutation sid
           [Settle 0 (online fresh_story [prologue]);
            Click ContinueButton; Click (ModalSubmit "kind");
            Click ContinueButton; Click (ModalSubmit "wrathful");
            Click GenerateEndingButton]).
  unfold no_start_writing. cbn. intros H.
  repeat (destruct H as [H|H]; [discriminate H|]).
  exact H.
Defined.

End TrackFacts.


(** * The emotion modal *)

Module ModalFacts.
Import Modal.

(** What a click on a mounted modal can do. *)
Lemma click_cases (s : State) (c : control) :
  (click s c = (s, []))
  \/ (click s c = (s, [OnClose]))
  \/ (exists name, In name Reader.EMOTIONS
        /\ click s c
           = ({| selectedEmotion := name; submitting := submitting s |}, []))
  \/ (submitting s = false /\ selectedEmotion s <> ""
      /\ click s c
         = ({| selectedEmotion := selectedEmotion s; submitting := true |},
            [OnContinue (selectedEmotion s)])).
Proof.
  destruct c; unfold click.
  - destruct (existsb (String.eqb name) Reader.EMOTIONS) eqn:E; [|auto].
    right. right. left. exists name. split; [|reflexivity].
    apply existsb_exists in E as (x & Hx & Heq).
    apply String.eqb_eq in Heq. subst x. exact Hx.
  - unfold handleSubmit, truthy_string.
    destruct (String.eqb_spec (selectedEmotion s) "") as [E|E];
      cbn [negb orb]; [auto|].
    destruct (submitting s) eqn:Hs; [auto|].
    right. right. right. auto.
  - destruct (submitting s); auto.
  - auto.
  - auto.
Qed.

Lemma clicks_invariant (cs : list control) (s : State) :
  chosen s ->
  (List.length (filter is_continue (snd (clicks cs s))) <= 1)%nat
  /\ (submitting s = true -> filter is_continue (snd (clicks cs s)) = [])
  /\ (forall e, In (OnContinue e) (snd (clicks cs s)) ->
                In e Reader.EMOTIONS /\ e <> "").
Proof.
  revert s. induction cs as [|c cs IH]; intros s Hs; cbn [clicks].
  - cbn. split; [lia|]. split; [reflexivity | contradiction].
  - destruct (click_cases s c)
      as [E|[E|[(name & Hn & E)|(Hsub & Hsel & E)]]]; rewrite E.
    + destruct (IH s Hs) as (H1 & H2 & H3).
      destruct (clicks cs s) as [s2 out2]. cbn in *. auto.
    + destruct (IH s Hs) as (H1 & H2 & H3).
      destruct (clicks cs s) as [s2 out2]. cbn in *.
      split; [exact H1|]. split; [exact H2|].
      intros e [He|He]; [discriminate He | auto].
    + assert (Hc : chosen {| selectedEmotion := name;
                             submitting := submitting s |})
        by (right; exact Hn).
      destruct (IH _ Hc) as (H1 & H2 & H3).
      destruct (clicks cs _) as [s2 out2]. cbn in *. auto.
    + assert (Hc : chosen {| selectedEmotion := selectedEmotion s;
                             submitting := true |}) by exact Hs.
      destruct (IH _ Hc) as (H1 & H2 & H3).
      destruct (clicks cs _) as [s2 out2]. cbn in *.
      rewrite (H2 eq_refl). split; [cbn; lia|].
      split; [intros Ht; congruence|].
      intros e [[= <-]|He]; [|auto].
      destruct Hs as [Hs|Hs]; [contradiction|auto].
Qed.

(** One mounted modal calls [onContinue] at most once, whatever is
    clicked and however often, and only with the name of one of the
    eleven emotion cards, never with the empty string. *)
Theorem modal_submits_at_most_once (cs : list control) :
  (List.length (filter is_continue (snd (clicks cs initial))) <= 1)%nat
  /\ forall e, In (OnContinue e) (snd (clicks cs initial)) ->
               In e Reader.EMOTIONS /\ e <> "".
Proof.
  destruct (clicks_invariant cs initial) as (H1 & _ & H3);
    [left; reflexivity | auto].
Qed.

Lemma modal_submits_at_most_once_witness :
  (List.length
     (filter is_continue
        (snd (clicks [SubmitButton; EmotionCard "kind"; SubmitButton;
                      SubmitButton; EmotionCard "wrathful"; SubmitButton;
                      Overlay] initial)))
   <= 1)%nat
  /\ In "kind" Reader.EMOTIONS
  /\ "kind" <> "".
Proof.
  destruct (modal_submits_at_most_once
              [SubmitButton; EmotionCard "kind"; SubmitButton;
               SubmitButton; EmotionCard "wrathful"; SubmitButton;
               Overlay]) as [H1 H2].
  split; [exact H1|]. apply H2. left. reflexivity.
Defined.

End ModalFacts.

(** * The landing page *)

Module LandingFacts.
Import Landing.

Lemma has_story_without (l : list StoryListItem) (a b : string) :
  a <> b ->
  existsb (fun x => String.eqb (li_story_id x) a) (without b l)
  = existsb (fun x => String.eqb (li_story_id x) a) l.
Proof.
  intros Hab. unfold without.
  induction l as [|x l IH]; cbn; [reflexivity|].
  destruct (String.eqb_spec (li_story_id x) b) as [E|E]; cbn.
  - destruct (String.eqb_spec (li_story_id x) a) as [E'|E']; cbn;
      [congruence | exact IH].
  - rewrite IH. reflexivity.
Qed.

Lemma without_gone (l : list StoryListItem) (a : string) :
  existsb (fun x => String.eqb (li_story_id x) a) (without a l) = false.
Proof.
  unfold without. induction l as [|x l IH]; cbn; [reflexivity|].
  destruct (String.eqb_spec (li_story_id x) a) as [E|E]; cbn; [exact IH|].
  destruct (String.eqb_spec (li_story_id x) a); [contradiction|exact IH].
Qed.

Lemma without_in (l : list StoryListItem) (a : string) (x : StoryListItem) :
  In x (without a l) <-> In x l /\ li_story_id x <> a.
Proof.
  unfold without. rewrite filter_In, negb_true_iff.
  split; intros [H1 H2]; split; auto.
  - intros E. rewrite E, String.eqb_refl in H2. discriminate.
  - apply String.eqb_neq. exact H2.
Qed.

(** A confirmed delete that succeeds, with nothing else in flight,
    removes from the list the stories with that id and no other, keeps
    the order of the rest, and re-enables the delete buttons. *)
Theorem delete_removes_only_that_story (ss : session) (storyId : string)
    (answer : forall c : call, reply c) :
  awaiting ss = [] ->
  enabled (view ss) (DeleteButton storyId true) = true ->
  answer (CallDeleteStory storyId) = Resolved tt ->
  stories (view (steps [Click (DeleteButton storyId true); Settle 0 answer] ss))
  = without storyId (stories (view ss))
  /\ has_story
       (view (steps [Click (DeleteButton storyId true); Settle 0 answer] ss))
       storyId = false
  /\ (forall x,
        In x (stories (view (steps [Click (DeleteButton storyId true);
                                    Settle 0 answer] ss)))
        <-> In x (stories (view ss)) /\ li_story_id x <> storyId)
  /\ deletingId
       (view (steps [Click (DeleteButton storyId true); Settle 0 answer] ss))
     = None
  /\ awaiting (steps [Click (DeleteButton storyId true); Settle 0 answer] ss)
     = [].
Proof.
  intros Ha En Hans. unfold steps. cbn [fold_left step].
  rewrite En. cbn [onClick handleDeleteStory negb spawn view awaiting].
  rewrite Ha. cbn [app nth_error p_call p_resume Reader.drop_nth].
  rewrite Hans. cbn [spawn view awaiting].
  split; [reflexivity|]. split; [apply without_gone|].
  split; [intros x; apply without_in|]. split; reflexivity.
Qed.

(** A delete that the user does not confirm changes nothing and calls
    nothing; a confirmed delete that fails leaves the list as it was,
    records the failure's message and re-enables the delete buttons. *)
Theorem delete_cancelled_or_failed_keeps_list (ss : session)
    (storyId : string) (answer : forall c : call, reply c) (err : thrown) :
  awaiting ss = [] ->
  enabled (view ss) (DeleteButton storyId true) = true ->
  answer (CallDeleteStory storyId) = Rejected err ->
  (view (step ss (Click (DeleteButton storyId false))) = view ss
   /\ awaiting (step ss (Click (DeleteButton storyId false))) = []
   /\ emitted (step ss (Click (DeleteButton storyId false))) = emitted ss)
  /\ stories
       (view (steps [Click (DeleteButton storyId true); Settle 0 answer] ss))
     = stories (view ss)
  /\ error
       (view (steps [Click (DeleteButton storyId true); Settle 0 answer] ss))
     = message_or "Failed to delete story" err
  /\ deletingId
       (view (steps [Click (DeleteButton storyId true); Settle 0 answer] ss))
     = None
  /\ awaiting (steps [Click (DeleteButton storyId true); Settle 0 answer] ss)
     = [].
Proof.
  intros Ha En Hans. split.
  - cbn [step]. assert (En' : enabled (view ss) (DeleteButton storyId false)
                              = true) by exact En.
    rewrite En'. cbn. rewrite app_nil_r. auto.
  - unfold steps. cbn [fold_left step].
    rewrite En. cbn [onClick handleDeleteStory negb spawn view awaiting].
    rewrite Ha. cbn [app nth_error p_call p_resume Reader.drop_nth].
    rewrite Hans. cbn [spawn view awaiting]. repeat split.
Qed.

(** The handler of a delete writes the list of the render it was
    created in, minus its story.  So when a second story is deleted while
    the first delete is still in flight (its button is enabled:
    [deletingId] names one story only), the second handler, once settled,
    writes a list that still holds the first story: after both deletes
    have succeeded the page lists the first story again. *)
Theorem overlapping_deletes_bring_back_the_first (ss : session)
    (a b : string) (answer : forall c : call, reply c) :
  awaiting ss = [] ->
  a <> b ->
  enabled (view ss) (DeleteButton a true) = true ->
  has_story (view ss) b = true ->
  answer (CallDeleteStory a) = Resolved tt ->
  answer (CallDeleteStory b) = Resolved tt ->
  stories (view (steps (two_deletes a b answer) ss))
  = without b (stories (view ss))
  /\ has_story (view (steps (two_deletes a b answer) ss)) a = true
  /\ awaiting (steps (two_deletes a b answer) ss) = [].
Proof.
  intros Ha Hab En Hb Hansa Hansb.
  assert (Hparts : on_stories (view ss) = true
                   /\ has_story (view ss) a = true).
  { cbn in En. apply andb_prop in En as [En _].
    apply andb_prop in En. exact En. }
  destruct Hparts as [Htab Hhas].
  unfold steps, two_deletes. cbn [fold_left].
  cbn [step]. rewrite En.
  cbn [onClick handleDeleteStory negb spawn view awaiting].
  assert (En2 : enabled (setDeletingId (Some a) (view ss))
                  (DeleteButton b true) = true).
  { cbn. unfold on_stories, has_story in *. cbn.
    rewrite Htab. cbn. unfold has_story in Hb. rewrite Hb. cbn.
    destruct (String.eqb_spec a b); [contradiction|reflexivity]. }
  rewrite En2. cbn [onClick handleDeleteStory negb spawn view awaiting].
  rewrite Ha. cbn [app nth_error p_call p_resume Reader.drop_nth].
  rewrite Hansa. cbn [spawn view awaiting nth_error p_call p_resume
                        Reader.drop_nth].
  rewrite Hansb. cbn [spawn view awaiting].
  split; [reflexivity|]. split; [|reflexivity].
  change (existsb (fun x => String.eqb (li_story_id x) a)
            (without b (stories (view ss))) = true).
  rewrite (has_story_without _ a b Hab). exact Hhas.
Qed.

(** For the same reason a refresh that lands while a delete is in flight
    is overwritten: the page shows the refreshed list until the delete
    settles, and then the list from before the refresh, minus the deleted
    story; the demos stay the refreshed ones. *)
Theorem delete_overwrites_a_refresh (ss : session) (a : string)
    (answer : forall c : call, reply c) (sr : StoryListResponse)
    (dr : DemoStoriesResponse) :
  awaiting ss = [] ->
  loading (view ss) = false ->
  enabled (view ss) (DeleteButton a true) = true ->
  answer CallLoadData = Resolved (sr, dr) ->
  answer (CallDeleteStory a) = Resolved tt ->
  stories (view (steps (firstn 3 (delete_across_refresh a answer)) ss))
  = stories_of sr
  /\ stories (view (steps (delete_across_refresh a answer) ss))
     = without a (stories (view ss))
  /\ demos (view (steps (delete_across_refresh a answer) ss)) = demos_of dr
  /\ awaiting (steps (delete_across_refresh a answer) ss) = [].
Proof.
  intros Ha Hl En Hload Hdel.
  assert (Htab : on_stories (view ss) = true).
  { cbn in En. apply andb_prop in En as [En _].
    apply andb_prop in En as [En _]. exact En. }
  assert (En2 : enabled (setDeletingId (Some a) (view ss)) RefreshButton
                = true).
  { cbn. unfold on_stories in *. cbn. rewrite Htab, Hl. reflexivity. }
  unfold steps, delete_across_refresh. cbn [firstn fold_left].
  cbn [step]. rewrite En.
  cbn [onClick handleDeleteStory negb spawn view awaiting].
  rewrite En2. cbn [onClick loadData spawn view awaiting].
  rewrite Ha. cbn [app nth_error p_call p_resume Reader.drop_nth].
  rewrite Hload. cbn [spawn view awaiting nth_error p_call p_resume
                        Reader.drop_nth].
  rewrite Hdel. cbn [spawn view awaiting].
  repeat split.
Qed.

(** "Begin This Story" always asks for a story of 7 days.  When the
    story is created the page calls [onSelectStory] with the id the server
    returned and leaves its button in the creating state (the flag is not
    reset on success); when the creation fails it calls nothing, records
    the failure's message and resets the flag. *)
Theorem start_demo_opens_the_created_story (ss : session) (demoId : string)
    (answer : forall c : call, reply c) :
  awaiting ss = [] ->
  enabled (view ss) (StartDemoButton demoId) = true ->
  map p_call (awaiting (step ss (Click (StartDemoButton demoId))))
  = [CallCreateFromDemo demoId 7]
  /\ (forall result,
        answer (CallCreateFromDemo demoId 7) = Resolved result ->
        emitted (steps [Click (StartDemoButton demoId); Settle 0 answer] ss)
        = (emitted ss ++ [OnSelectStory (cs_story_id result)])%list
        /\ view (steps [Click (StartDemoButton demoId); Settle 0 answer] ss)
           = setCreatingFromDemo (Some demoId) (view ss))
  /\ (forall err,
        answer (CallCreateFromDemo demoId 7) = Rejected err ->
        emitted (steps [Click (StartDemoButton demoId); Settle 0 answer] ss)
        = emitted ss
        /\ view (steps [Click (StartDemoButton demoId); Settle 0 answer] ss)
           = setCreatingFromDemo None
               (setError (message_or "Failed to start demo story" err)
                  (setCreatingFromDemo (Some demoId) (view ss)))).
Proof.
  intros Ha En. unfold steps. cbn [fold_left step]. rewrite En.
  cbn [onClick handleStartDemo spawn view awaiting emitted].
  rewrite Ha. cbn [app map nth_error p_call p_resume Reader.drop_nth].
  split; [reflexivity|]. split.
  - intros result ->. cbn. auto.
  - intros err ->. cbn. rewrite app_nil_r. auto.
Qed.

Lemma delete_removes_only_that_story_witness :
  stories
    (view (steps [Click (DeleteButton "b" true);
                  Settle 0 (succeeds reloaded (created "n"))]
             (listed Stories)))
  = [an_item "a"; an_item "c"].
Proof.
  apply (delete_removes_only_that_story (listed Stories) "b"
           (succeeds reloaded (created "n"))); reflexivity.
Defined.

Lemma delete_cancelled_or_failed_keeps_list_witness :
  stories
    (view (steps [Click (DeleteButton "b" true);
                  Settle 0 (fails (Thrown PlainError "Story not found"))]
             (listed Stories)))
  = [an_item "a"; an_item "b"; an_item "c"]
  /\ error
       (view (steps [Click (DeleteButton "b" true);
                     Settle 0 (fails (Thrown PlainError "Story not found"))]
                (listed Stories)))
     = "Story not found".
Proof.
  destruct (delete_cancelled_or_failed_keeps_list (listed Stories) "b"
              (fails (Thrown PlainError "Story not found"))
              (Thrown PlainError "Story not found")
              eq_refl eq_refl eq_refl) as (_ & H1 & H2 & _).
  split; [exact H1 | exact H2].
Defined.

Lemma overlapping_deletes_bring_back_the_first_witness :
  stories
    (view (steps (two_deletes "a" "b" (succeeds reloaded (created "n")))
             (listed Stories)))
  = [an_item "a"; an_item "c"]
  /\ has_story
       (view (steps (two_deletes "a" "b" (succeeds reloaded (created "n")))
                (listed Stories)))
       "a"
     = true.
Proof.
  destruct (overlapping_deletes_bring_back_the_first (listed Stories)
              "a" "b" (succeeds reloaded (created "n")))
    as (H1 & H2 & _); try reflexivity; [discriminate|].
  split; [exact H1 | exact H2].
Defined.

Lemma delete_overwrites_a_refresh_witness :
  stories
    (view (steps
             (firstn 3
                (delete_across_refresh "a"
                   (succeeds reloaded (created "n"))))
             (listed Stories)))
  = [an_item "b"; an_item "c"]
  /\ stories
       (view (steps
                (delete_across_refresh "a"
                   (succeeds reloaded (created "n")))
                (listed Stories)))
     = [an_item "b"; an_item "c"].
Proof.
  destruct (delete_overwrites_a_refresh (listed Stories) "a"
              (succeeds reloaded (created "n"))
              {| stories_of := [an_item "b"; an_item "c"]; sl_total := 2 |}
              {| demos_of := [a_demo] |}
              eq_refl eq_refl eq_refl eq_refl eq_refl) as (H1 & H2 & _).
  split; [exact H1 | exact H2].
Defined.

Lemma start_demo_opens_the_created_story_witness :
  emitted
    (steps [Click (StartDemoButton "d1");
            Settle 0 (succeeds reloaded (created "n"))]
       (listed Demos))
  = [OnSelectStory "n"]
  /\ creatingFromDemo
       (view (steps [Click (StartDemoButton "d1");
                     Settle 0 (fails (Thrown PlainError "No such demo"))]
                (listed Demos)))
     = None.
Proof.
  split.
  - destruct (start_demo_opens_the_created_story (listed Demos) "d1"
                (succeeds reloaded (created "n")) eq_refl eq_refl)
      as (_ & H & _).
    destruct (H (created "n") eq_refl) as [-> _]. reflexivity.
  - destruct (start_demo_opens_the_created_story (listed Demos) "d1"
                (fails (Thrown PlainError "No such demo")) eq_refl eq_refl)
      as (_ & _ & H).
    destruct (H (Thrown PlainError "No such demo") eq_refl) as [_ ->].
    reflexivity.
Defined.

End LandingFacts.

(** * The application shell *)

Module AppFacts.
Import App.

Lemma act_linked (s : State) (a : action) :
  (view s = LandingView <-> selectedStoryId s = None) ->
  (view (act s a) = LandingView <-> selectedStoryId (act s a) = None).
Proof.
  intros H. destruct a; cbn; try exact H; split; intros; try reflexivity;
    discriminate.
Qed.

Lemma acts_linked (l : list action) (s : State) :
  (view s = LandingView <-> selectedStoryId s = None) ->
  (view (fold_left act l s) = LandingView
   <-> selectedStoryId (fold_left act l s) = None).
Proof.
  revert s. induction l as [|a l IH]; intros s H; cbn; [exact H|].
  apply IH, act_linked, H.
Qed.

(** Whatever the pages ask of the shell, in any order, it is on the
    landing page exactly when no story is selected, and it renders one
    page: the landing page, or the reader on the selected story.  The one
    exception is a selected story whose id is the empty string, which is
    falsy: then the shell renders nothing at all. *)
Theorem shell_renders_one_page (l : list action) :
  (rendersLanding (fold_left act l initial) = true
   /\ rendersReader (fold_left act l initial) = None
   /\ selectedStoryId (fold_left act l initial) = None)
  \/ (rendersLanding (fold_left act l initial) = false
      /\ exists i,
           selectedStoryId (fold_left act l initial) = Some i
           /\ rendersReader (fold_left act l initial)
              = if truthy_string i then Some i else None).
Proof.
  assert (H : view (fold_left act l initial) = LandingView
              <-> selectedStoryId (fold_left act l initial) = None).
  { apply acts_linked. cbn. split; reflexivity. }
  unfold rendersLanding, rendersReader.
  destruct (view (fold_left act l initial)) eqn:V.
  - left. destruct H as [H _]. rewrite (H eq_refl). auto.
  - right. split; [reflexivity|].
    destruct (selectedStoryId (fold_left act l initial)) as [i|] eqn:S.
    + exists i. auto.
    + destruct H as [_ H]. discriminate (H eq_refl).
Qed.

(** "Start New Story" creates nothing: the landing page makes no remote
    call and changes nothing of its state but the tab, which the effect
    on [switchToDemos] sets to the demos, and the shell ends as it was,
    with the flag raised by [handleCreateStory] lowered again. *)
Theorem start_new_story_only_switches_tab (a : State)
    (ss : Landing.session) :
  Landing.awaiting
    (Landing.steps [Landing.Click Landing.CreateButton;
                    Landing.SwitchToDemos] ss)
  = Landing.awaiting ss
  /\ Landing.view
       (Landing.steps [Landing.Click Landing.CreateButton;
                       Landing.SwitchToDemos] ss)
     = Landing.setActiveTab Landing.Demos (Landing.view ss)
  /\ Landing.emitted
       (Landing.steps [Landing.Click Landing.CreateButton;
                       Landing.SwitchToDemos] ss)
     = (Landing.emitted ss
        ++ [Landing.OnCreateStory; Landing.OnSwitchToDemosHandled])%list
  /\ switchToDemos (wire a Landing.OnCreateStory) = true
  /\ fold_left wire [Landing.OnCreateStory; Landing.OnSwitchToDemosHandled]
       a
     = switchHandled a.
Proof.
  cbn. rewrite <- app_assoc. repeat split.
Qed.

End AppFacts.

(** * Sessions of the reader *)

Module SessionFacts.
Import Reader Spec Samples.

(** Without a story, with nothing in flight and [generating] off, no
    event has an effect. *)
Lemma nothing_to_do (storyId : string) (ss : session) (e : event) :
  story (view ss) = None ->
  generating (view ss) = false ->
  awaiting ss = [] ->
  step storyId ss e = ss.
Proof.
  intros Hs Hg Ha. destruct e as [c|n answer|]; cbn [step].
  - unfold enabled. rewrite Hs. reflexivity.
  - rewrite Ha. destruct n; reflexivity.
  - rewrite Hg. reflexivity.
Qed.

(** A first load that fails is final: the reader shows its error screen
    with the failure's message (or nothing, when the message is empty),
    nothing is in flight, no control of the reader is enabled, and no
    later event changes anything; only leaving the reader gets out. *)
Theorem failed_first_load_is_final (storyId : string)
    (answer : forall c : call, reply c) (err : thrown) (es : list event) :
  answer (CallLoad storyId) = Rejected err ->
  steps storyId (Settle 0 answer :: es) (mount storyId)
  = steps storyId [Settle 0 answer] (mount storyId)
  /\ render (view (steps storyId (Settle 0 answer :: es) (mount storyId)))
     = (if truthy_string (message_or "Failed to load story" err)
        then ErrorState else Nothing)
  /\ awaiting (steps storyId (Settle 0 answer :: es) (mount storyId)) = []
  /\ forall c,
       enabled (view (steps storyId (Settle 0 answer :: es) (mount storyId)))
         c = false.
Proof.
  intros Hans.
  assert (Hfix : steps storyId (Settle 0 answer :: es) (mount storyId)
                 = steps storyId [Settle 0 answer] (mount storyId)).
  { unfold steps. cbn [fold_left].
    set (ss1 := step storyId (mount storyId) (Settle 0 answer)).
    assert (H1 : story (view ss1) = None /\ generating (view ss1) = false
                 /\ awaiting ss1 = []).
    { subst ss1. cbn. rewrite Hans. cbn. auto. }
    destruct H1 as (Hs & Hg & Ha). clearbody ss1.
    induction es as [|e es IH]; cbn [fold_left]; [reflexivity|].
    rewrite (nothing_to_do storyId ss1 e Hs Hg Ha). exact IH. }
  rewrite Hfix. unfold steps. cbn. rewrite Hans. cbn.
  repeat split.
Qed.

(** Clicking a chapter in the sidebar, of any day but 0, displays the
    first chapter of the list with that day and starts no call; the one
    exception is a chapter whose day is -1 while an ending is held, which
    displays the ending, as clicking the ending's item does. *)
Theorem selecting_an_item_displays_it (storyId : string) (ss : session)
    (d : Z) (c : Chapter) :
  story (view ss) <> None ->
  find (fun x => day x =? d) (chapters (view ss)) = Some c ->
  d <> 0 ->
  (d <> -1 \/ ending (view ss) = None ->
   reader_panel (view (step storyId ss (Click (ChapterItem d))))
   = ChapterPanel c)
  /\ (forall e,
        d = -1 -> ending (view ss) = Some e ->
        reader_panel (view (step storyId ss (Click (ChapterItem d))))
        = EndingPanel e)
  /\ (forall e,
        ending (view ss) = Some e ->
        reader_panel (view (step storyId ss (Click EndingItem)))
        = EndingPanel e)
  /\ awaiting (step storyId ss (Click (ChapterItem d))) = awaiting ss.
Proof.
  intros Hst Hfind Hd0.
  destruct (story (view ss)) as [st|] eqn:Hs; [clear Hst|contradiction].
  assert (En : enabled (view ss) (ChapterItem d) = true).
  { unfold enabled. rewrite Hs. apply existsb_exists.
    apply find_some in Hfind. exists c. exact Hfind. }
  cbn [step]. rewrite En. cbn [onClick spawn view awaiting].
  assert (Hcur : currentChapter (setSelectedChapter (Some d) (view ss))
                 = Some c).
  { rewrite (ReaderFacts.currentChapter_lookup
               (setSelectedChapter (Some d) (view ss)) d eq_refl Hd0).
    exact Hfind. }
  split; [|split; [|split]].
  - intros H. unfold reader_panel. rewrite Hcur.
    unfold ending_selected. cbn.
    destruct H as [H|H].
    + destruct (Z.eqb_spec d (-1)); [contradiction|reflexivity].
    + rewrite H. destruct (d =? -1); reflexivity.
  - intros e -> He. unfold reader_panel, ending_selected. cbn.
    rewrite He. reflexivity.
  - intros e He.
    assert (En' : enabled (view ss) EndingItem = true).
    { unfold enabled, has_ending. rewrite Hs, He. reflexivity. }
    rewrite En'. cbn. unfold reader_panel, ending_selected. cbn.
    rewrite He. reflexivity.
  - reflexivity.
Qed.

Lemma failed_first_load_is_final_witness :
  render
    (view (steps sid
             (Settle 0 (server network_error network_error network_error)
              :: [Click ContinueButton; Click StartWritingButton; Tick])
             (mount sid)))
  = ErrorState.
Proof.
  apply (failed_first_load_is_final sid
           (server network_error network_error network_error)
           (Thrown TypeError "Failed to fetch")
           [Click ContinueButton; Click StartWritingButton; Tick]).
  reflexivity.
Defined.

Lemma selecting_an_item_displays_it_witness :
  reader_panel
    (view (step sid
             {| view := at_rest finished_story [prologue; day1; day2]
                          (Some (an_ending "Dawn")) (Some (-1));
                awaiting := [] |}
             (Click (ChapterItem 2))))
  = ChapterPanel day2.
Proof.
  apply (selecting_an_item_displays_it sid
           {| view := at_rest finished_story [prologue; day1; day2]
                        (Some (an_ending "Dawn")) (Some (-1));
              awaiting := [] |}
           2 day2).
  - discriminate.
  - reflexivity.
  - discriminate.
  - left. discriminate.
Defined.

End SessionFacts.
